(** * Verification of the latency benchmark history [dev/latency_bench/data.js]

    The file is a single JavaScript assignment
    [window.BENCHMARK_DATA = { ... }] whose right-hand side is an object
    literal.  The literal is transcribed below, property by property, as a
    value of the untyped datatype [JsValue]; every statement about the file
    is then a statement about that value, read through the accessors
    [field], [elements] and [properties]. *)

From Stdlib Require Import ZArith QArith Qabs Bool List String Ascii Lia.
Import ListNotations.

Local Open Scope Z_scope.
Local Open Scope string_scope.

#[local] Set Warnings "-register-all".

(** ** JavaScript values as they occur in an object literal *)

(** A number literal is kept as the exact rational its digits denote
    ([0.072] is [72 # 1000]); an object keeps its properties in source
    order. *)
Inductive JsValue : Type :=
| JNull
| JBool (b : bool)
| JNum (q : Q)
| JStr (s : string)
| JArr (xs : list JsValue)
| JObj (ps : list (string * JsValue)).

Arguments JNum q%_Q.
Arguments JStr s%_string.

(** Characters written with an escape in the source: line feed, carriage
    return and the double quote. *)
Definition LF : string := String (ascii_of_nat 10) EmptyString.
Definition CR : string := String (ascii_of_nat 13) EmptyString.
Definition DQ : string := String (ascii_of_nat 34) EmptyString.

Module Js.

(** [lookup k ps]: the value an object literal with properties [ps] has
    under key [k]; a key written twice keeps its last value. *)
Fixpoint lookup (k : string) (ps : list (string * JsValue)) : option JsValue :=
  match ps with
  | [] => None
  | (k', v) :: rest =>
      match lookup k rest with
      | Some w => Some w
      | None => if String.eqb k k' then Some v else None
      end
  end.

(** [field k v] is [v[k]]; [None] stands for [undefined]. *)
Definition field (k : string) (v : JsValue) : option JsValue :=
  match v with
  | JObj ps => lookup k ps
  | _ => None
  end.

Definition elements (v : JsValue) : list JsValue :=
  match v with
  | JArr xs => xs
  | _ => []
  end.

Definition properties (v : JsValue) : list (string * JsValue) :=
  match v with
  | JObj ps => ps
  | _ => []
  end.

Definition keys (v : JsValue) : list string := map fst (properties v).

Definition str_field (k : string) (v : JsValue) : option string :=
  match field k v with
  | Some (JStr s) => Some s
  | _ => None
  end.

Definition num_field (k : string) (v : JsValue) : option Q :=
  match field k v with
  | Some (JNum q) => Some q
  | _ => None
  end.

Definition obj_field (k : string) (v : JsValue) : JsValue :=
  match field k v with
  | Some w => w
  | None => JNull
  end.

End Js.
Import Js.

(** ** The data file *)

Definition run_00 : JsValue :=
  JObj [
    ("commit", JObj [
      ("author", JObj [
        ("email", JStr "bornholt@amazon.com");
        ("name", JStr "James Bornholt");
        ("username", JStr "jamesbornholt") ]);
      ("committer", JObj [
        ("email", JStr "noreply@github.com");
        ("name", JStr "GitHub");
        ("username", JStr "web-flow") ]);
      ("distinct", JBool true);
      ("id", JStr "c7464d043a0792a164aa6ecbb189974b2e2dfeeb");
      ("message", JStr ("Fixes for Rust 1.72 (#479)" ++ LF ++ LF ++ "* Fixes for Rust 1.72" ++ LF ++ LF ++ "Signed-off-by: James Bornholt <bornholt@amazon.com>" ++ LF ++ LF ++ "* Fix tracing" ++ LF ++ LF ++ "Signed-off-by: James Bornholt <bornholt@amazon.com>" ++ LF ++ LF ++ "---------" ++ LF ++ LF ++ "Signed-off-by: James Bornholt <bornholt@amazon.com>"));
      ("timestamp", JStr "2023-08-25T15:38:27Z");
      ("tree_id", JStr "0ff6bd84f859a7b1fff3f2e95a32a004d6b80a45");
      ("url", JStr "https://github.com/awslabs/mountpoint-s3/commit/c7464d043a0792a164aa6ecbb189974b2e2dfeeb") ]);
    ("date", JNum 1692980275812);
    ("tool", JStr "customSmallerIsBetter");
    ("benches", JArr [
      JObj [("name", JStr "readdir_100"); ("value", JNum 0.072); ("unit", JStr "seconds")];
      JObj [("name", JStr "readdir_1000"); ("value", JNum 0.175); ("unit", JStr "seconds")];
      JObj [("name", JStr "readdir_10000"); ("value", JNum 1.149); ("unit", JStr "seconds")];
      JObj [("name", JStr "readdir_100000"); ("value", JNum 10.888); ("unit", JStr "seconds")];
      JObj [
        ("name", JStr "time_to_first_byte_read");
        ("value", JNum 103.8612371);
        ("unit", JStr "milliseconds") ];
      JObj [
        ("name", JStr "time_to_first_byte_read_small_file");
        ("value", JNum 76.0403998);
        ("unit", JStr "milliseconds") ] ]) ].

Definition run_01 : JsValue :=
  JObj [
    ("commit", JObj [
      ("author", JObj [
        ("email", JStr "ahmar.suhail@gmail.com");
        ("name", JStr "ahmarsuhail");
        ("username", JStr "ahmarsuhail") ]);
      ("committer", JObj [
        ("email", JStr "noreply@github.com");
        ("name", JStr "GitHub");
        ("username", JStr "web-flow") ]);
      ("distinct", JBool true);
      ("id", JStr "a7e12ec872d2b51f77f7fc2b9b11b4cba0305f56");
      ("message", JStr ("Updates encryption documentation for SSE-KMS, DSSE-KMS (#480)" ++ LF ++ LF ++ "* improves encryption documentation" ++ CR ++ LF ++ CR ++ LF ++ "Signed-off-by: Ahmar Suhail <ahmarsu@amazon.co.uk>" ++ CR ++ LF ++ CR ++ LF ++ "* Update doc/CONFIGURATION.md" ++ CR ++ LF ++ CR ++ LF ++ "Co-authored-by: James Bornholt <jamesbornholt@gmail.com>" ++ CR ++ LF ++ "Signed-off-by: ahmarsuhail <ahmar.suhail@gmail.com>" ++ CR ++ LF ++ CR ++ LF ++ "---------" ++ CR ++ LF ++ CR ++ LF ++ "Signed-off-by: Ahmar Suhail <ahmarsu@amazon.co.uk>" ++ CR ++ LF ++ "Signed-off-by: ahmarsuhail <ahmar.suhail@gmail.com>" ++ CR ++ LF ++ "Co-authored-by: Ahmar Suhail <ahmarsu@amazon.co.uk>" ++ CR ++ LF ++ "Co-authored-by: James Bornholt <jamesbornholt@gmail.com>"));
      ("timestamp", JStr "2023-08-25T13:05:48-05:00");
      ("tree_id", JStr "8bdb885b6bf0211e6c94ce228ab1b96881a632b1");
      ("url", JStr "https://github.com/awslabs/mountpoint-s3/commit/a7e12ec872d2b51f77f7fc2b9b11b4cba0305f56") ]);
    ("date", JNum 1692987391644);
    ("tool", JStr "customSmallerIsBetter");
    ("benches", JArr [
      JObj [("name", JStr "readdir_100"); ("value", JNum 0.074); ("unit", JStr "seconds")];
      JObj [("name", JStr "readdir_1000"); ("value", JNum 0.185); ("unit", JStr "seconds")];
      JObj [("name", JStr "readdir_10000"); ("value", JNum 1.138); ("unit", JStr "seconds")];
      JObj [("name", JStr "readdir_100000"); ("value", JNum 10.54); ("unit", JStr "seconds")];
      JObj [
        ("name", JStr "time_to_first_byte_read");
        ("value", JNum 97.5525328);
        ("unit", JStr "milliseconds") ];
      JObj [
        ("name", JStr "time_to_first_byte_read_small_file");
        ("value", JNum 66.968853);
        ("unit", JStr "milliseconds") ] ]) ].

Definition run_02 : JsValue :=
  JObj [
    ("commit", JObj [
      ("author", JObj [
        ("email", JStr "49699333+dependabot[bot]@users.noreply.github.com");
        ("name", JStr "dependabot[bot]");
        ("username", JStr "dependabot[bot]") ]);
      ("committer", JObj [
        ("email", JStr "noreply@github.com");
        ("name", JStr "GitHub");
        ("username", JStr "web-flow") ]);
      ("distinct", JBool true);
      ("id", JStr "f10dc5b34edeed6d9640911054bef1366751f11e");
      ("message", JStr ("Bump aws-actions/configure-aws-credentials from 2 to 3 (#484)" ++ LF ++ LF ++ "Bumps [aws-actions/configure-aws-credentials](https://github.com/aws-actions/configure-aws-credentials) from 2 to 3." ++ LF ++ "- [Release notes](https://github.com/aws-actions/configure-aws-credentials/releases)" ++ LF ++ "- [Changelog](https://github.com/aws-actions/configure-aws-credentials/blob/main/CHANGELOG.md)" ++ LF ++ "- [Commits](https://github.com/aws-actions/configure-aws-credentials/compare/v2...v3)" ++ LF ++ LF ++ "---" ++ LF ++ "updated-dependencies:" ++ LF ++ "- dependency-name: aws-actions/configure-aws-credentials" ++ LF ++ "  dependency-type: direct:production" ++ LF ++ "  update-type: version-update:semver-major" ++ LF ++ "..." ++ LF ++ LF ++ "Signed-off-by: dependabot[bot] <support@github.com>" ++ LF ++ "Co-authored-by: dependabot[bot] <49699333+dependabot[bot]@users.noreply.github.com>"));
      ("timestamp", JStr "2023-08-28T17:31:03Z");
      ("tree_id", JStr "e4ee11c1b6513cb4048abdcf47c05c785f3af657");
      ("url", JStr "https://github.com/awslabs/mountpoint-s3/commit/f10dc5b34edeed6d9640911054bef1366751f11e") ]);
    ("date", JNum 1693246290233);
    ("tool", JStr "customSmallerIsBetter");
    ("benches", JArr [
      JObj [("name", JStr "readdir_100"); ("value", JNum 0.082); ("unit", JStr "seconds")];
      JObj [("name", JStr "readdir_1000"); ("value", JNum 0.18); ("unit", JStr "seconds")];
      JObj [("name", JStr "readdir_10000"); ("value", JNum 1.154); ("unit", JStr "seconds")];
      JObj [("name", JStr "readdir_100000"); ("value", JNum 10.809); ("unit", JStr "seconds")];
      JObj [
        ("name", JStr "time_to_first_byte_read");
        ("value", JNum 83.8370987);
        ("unit", JStr "milliseconds") ];
      JObj [
        ("name", JStr "time_to_first_byte_read_small_file");
        ("value", JNum 72.1544018);
        ("unit", JStr "milliseconds") ] ]) ].

Definition run_03 : JsValue :=
  JObj [
    ("commit", JObj [
      ("author", JObj [
        ("email", JStr "67096+lesserwhirls@users.noreply.github.com");
        ("name", JStr "Sean Arms");
        ("username", JStr "lesserwhirls") ]);
      ("committer", JObj [
        ("email", JStr "noreply@github.com");
        ("name", JStr "GitHub");
        ("username", JStr "web-flow") ]);
      ("distinct", JBool true);
      ("id", JStr "09f556edf6ed4233ff6c419dbf9331ac082c11d5");
      ("message", JStr ("Support building with Clang 16 (#486)" ++ LF ++ LF ++ "In order to build with Clang 16, the bindgen dependency needs to be" ++ LF ++ "upgraded to at least version 0.62.0 (this change bumps to the latest," ++ LF ++ "which is 0.66.1). See awslabs/mountpoint-s3#485" ++ LF ++ LF ++ "Signed-off-by: Sean Arms <67096+lesserwhirls@users.noreply.github.com>"));
      ("timestamp", JStr "2023-08-28T18:06:18Z");
      ("tree_id", JStr "6bcf53c04dad3ed4eb2a512919978aee74deda1e");
      ("url", JStr "https://github.com/awslabs/mountpoint-s3/commit/09f556edf6ed4233ff6c419dbf9331ac082c11d5") ]);
    ("date", JNum 1693248083489);
    ("tool", JStr "customSmallerIsBetter");
    ("benches", JArr [
      JObj [("name", JStr "readdir_100"); ("value", JNum 0.086); ("unit", JStr "seconds")];
      JObj [("name", JStr "readdir_1000"); ("value", JNum 0.191); ("unit", JStr "seconds")];
      JObj [("name", JStr "readdir_10000"); ("value", JNum 1.193); ("unit", JStr "seconds")];
      JObj [("name", JStr "readdir_100000"); ("value", JNum 11.185); ("unit", JStr "seconds")];
      JObj [
        ("name", JStr "time_to_first_byte_read");
        ("value", JNum 91.3870611);
        ("unit", JStr "milliseconds") ];
      JObj [
        ("name", JStr "time_to_first_byte_read_small_file");
        ("value", JNum 54.508068200000004);
        ("unit", JStr "milliseconds") ] ]) ].

Definition run_04 : JsValue :=
  JObj [
    ("commit", JObj [
      ("author", JObj [
        ("email", JStr "bornholt@amazon.com");
        ("name", JStr "James Bornholt");
        ("username", JStr "jamesbornholt") ]);
      ("committer", JObj [
        ("email", JStr "noreply@github.com");
        ("name", JStr "GitHub");
        ("username", JStr "web-flow") ]);
      ("distinct", JBool true);
      ("id", JStr "73a27c1d494e07354cab0d4b06a3a4499f6d466d");
      ("message", JStr ("Small fixes for S3 on Outposts (#470)" ++ LF ++ LF ++ "This fixes two issues that were preventing Mountpoint from working" ++ LF ++ "against Outposts buckets:" ++ LF ++ "1. Outposts doesn't include the bucket name in ListObjectsV2 responses." ++ LF ++ "   We weren't actually using that output anyway, so I just removed it." ++ LF ++ "2. For GetObject requests, we were sending a HTTP header like" ++ LF ++ "   `Accept: application/xml,*/*`. While technically valid HTTP, it's" ++ LF ++ "   weird to accept */* as well as something else, and it was confusing" ++ LF ++ "   Outposts' request signing. So I switched to overwriting the existing" ++ LF ++ "   header, which is what the comment suggested the code was intended to" ++ LF ++ "   do anyway." ++ LF ++ LF ++ "I also took this chance to make a little cleanup to parsing" ++ LF ++ "ListObjectsV2 responses: the `parse` functions shouldn't be defined on" ++ LF ++ "the generic `ListObjectsResult` structs, which are shared by all" ++ LF ++ "clients." ++ LF ++ LF ++ "Signed-off-by: James Bornholt <bornholt@amazon.com>"));
      ("timestamp", JStr "2023-08-30T16:35:40Z");
      ("tree_id", JStr "444bdf0455dc0f3ab4c24c722bed5db5e1733938");
      ("url", JStr "https://github.com/awslabs/mountpoint-s3/commit/73a27c1d494e07354cab0d4b06a3a4499f6d466d") ]);
    ("date", JNum 1693415889919);
    ("tool", JStr "customSmallerIsBetter");
    ("benches", JArr [
      JObj [("name", JStr "readdir_100"); ("value", JNum 0.076); ("unit", JStr "seconds")];
      JObj [("name", JStr "readdir_1000"); ("value", JNum 0.195); ("unit", JStr "seconds")];
      JObj [("name", JStr "readdir_10000"); ("value", JNum 1.153); ("unit", JStr "seconds")];
      JObj [("name", JStr "readdir_100000"); ("value", JNum 10.843); ("unit", JStr "seconds")];
      JObj [
        ("name", JStr "time_to_first_byte_read");
        ("value", JNum 98.2288027);
        ("unit", JStr "milliseconds") ];
      JObj [
        ("name", JStr "time_to_first_byte_read_small_file");
        ("value", JNum 92.819065);
        ("unit", JStr "milliseconds") ] ]) ].

Definition run_05 : JsValue :=
  JObj [
    ("commit", JObj [
      ("author", JObj [
        ("email", JStr "vladvolodkin@gmail.com");
        ("name", JStr "Volodkin Vladislav");
        ("username", JStr "vladem") ]);
      ("committer", JObj [
        ("email", JStr "noreply@github.com");
        ("name", JStr "GitHub");
        ("username", JStr "web-flow") ]);
      ("distinct", JBool true);
      ("id", JStr "5626e204259e6a8141d798dbc0837ce3e3e3c3c3");
      ("message", JStr ("Allow reading restored GFR/GDA objects (#434) (#467)" ++ LF ++ LF ++ "Signed-off-by: Vlad Volodkin <vlaad@amazon.com>" ++ LF ++ "Co-authored-by: Vlad Volodkin <vlaad@amazon.com>"));
      ("timestamp", JStr "2023-08-30T22:33:46Z");
      ("tree_id", JStr "b6e1559cd71f934917f8e13028b3f7ddb68ef46a");
      ("url", JStr "https://github.com/awslabs/mountpoint-s3/commit/5626e204259e6a8141d798dbc0837ce3e3e3c3c3") ]);
    ("date", JNum 1693437064719);
    ("tool", JStr "customSmallerIsBetter");
    ("benches", JArr [
      JObj [("name", JStr "readdir_100"); ("value", JNum 0.074); ("unit", JStr "seconds")];
      JObj [("name", JStr "readdir_1000"); ("value", JNum 0.271); ("unit", JStr "seconds")];
      JObj [("name", JStr "readdir_10000"); ("value", JNum 1.112); ("unit", JStr "seconds")];
      JObj [("name", JStr "readdir_100000"); ("value", JNum 10.574); ("unit", JStr "seconds")];
      JObj [
        ("name", JStr "time_to_first_byte_read");
        ("value", JNum 77.7493373);
        ("unit", JStr "milliseconds") ];
      JObj [
        ("name", JStr "time_to_first_byte_read_small_file");
        ("value", JNum 78.6989397);
        ("unit", JStr "milliseconds") ] ]) ].

Definition run_06 : JsValue :=
  JObj [
    ("commit", JObj [
      ("author", JObj [
        ("email", JStr "bornholt@amazon.com");
        ("name", JStr "James Bornholt");
        ("username", JStr "jamesbornholt") ]);
      ("committer", JObj [
        ("email", JStr "noreply@github.com");
        ("name", JStr "GitHub");
        ("username", JStr "web-flow") ]);
      ("distinct", JBool false);
      ("id", JStr "5e8d834c2df2269d2f8670f38bc3c764d10a90f7");
      ("message", JStr ("Close input/output handles when running in background (#489)" ++ LF ++ LF ++ "When we run in background mode, the child process inherits the" ++ LF ++ "stdin/stdout/stderr of the parent. That's good because we can print" ++ LF ++ "mount errors from the child and have them reach the parent. But once" ++ LF ++ "we're mounted and the parent exits, the child still holds onto those" ++ LF ++ "handles. This is bad if those handles are pipes, which are often used" ++ LF ++ "when trying to launch a daemon (e.g. Python subprocess.check_output). In" ++ LF ++ "that case, the pipes will never close and the caller will keep waiting" ++ LF ++ "for output on them forever." ++ LF ++ LF ++ "We need to close these handles once we're successfully daemonized. This" ++ LF ++ "will prevent us from seeing anything the process prints after they're" ++ LF ++ "closed, but from that point we should be logging anyway, so shouldn't be" ++ LF ++ "printing. Printing still works (doesn't panic or anything), just doesn't" ++ LF ++ "go anywhere." ++ LF ++ LF ++ "With this change, a Python script like" ++ LF ++ LF ++ "    import subprocess" ++ LF ++ "    subprocess.check_output(['mount-s3', 'doc-example-bucket', '/bucket'])" ++ LF ++ LF ++ "works correctly: once the mount has succeeded, it returns. Without this" ++ LF ++ "change, this program blocks until the bucket is unmounted." ++ LF ++ LF ++ "Signed-off-by: James Bornholt <bornholt@amazon.com>"));
      ("timestamp", JStr "2023-08-31T12:42:20Z");
      ("tree_id", JStr "4b2c3032f1df614a94637e0d1e1aa4b45ca30025");
      ("url", JStr "https://github.com/awslabs/mountpoint-s3/commit/5e8d834c2df2269d2f8670f38bc3c764d10a90f7") ]);
    ("date", JNum 1693487974539);
    ("tool", JStr "customSmallerIsBetter");
    ("benches", JArr [
      JObj [("name", JStr "readdir_100"); ("value", JNum 0.083); ("unit", JStr "seconds")];
      JObj [("name", JStr "readdir_1000"); ("value", JNum 0.188); ("unit", JStr "seconds")];
      JObj [("name", JStr "readdir_10000"); ("value", JNum 1.142); ("unit", JStr "seconds")];
      JObj [("name", JStr "readdir_100000"); ("value", JNum 10.879); ("unit", JStr "seconds")];
      JObj [
        ("name", JStr "time_to_first_byte_read");
        ("value", JNum 101.2566887);
        ("unit", JStr "milliseconds") ];
      JObj [
        ("name", JStr "time_to_first_byte_read_small_file");
        ("value", JNum 65.2557248);
        ("unit", JStr "milliseconds") ] ]) ].

Definition run_07 : JsValue :=
  JObj [
    ("commit", JObj [
      ("author", JObj [
        ("email", JStr "sauraank@amazon.co.uk");
        ("name", JStr "Ankit Saurabh");
        ("username", JStr "sauraank") ]);
      ("committer", JObj [
        ("email", JStr "noreply@github.com");
        ("name", JStr "GitHub");
        ("username", JStr "web-flow") ]);
      ("distinct", JBool true);
      ("id", JStr "7643a22ac362e6ace91b2a266f4cc91b7e6570bc");
      ("message", JStr ("Bump version of Mountpoint to v1.0.1 (#494)" ++ LF ++ LF ++ "* Bump version of Mountpoint to v1.0.1" ++ LF ++ LF ++ "Signed-off-by: Ankit Saurabh <sauraank@amazon.co.uk>" ++ LF ++ LF ++ "* Added latest PRs to CHANGELOG.md" ++ LF ++ LF ++ "Signed-off-by: Ankit Saurabh <sauraank@amazon.co.uk>" ++ LF ++ LF ++ "* Added latest PRs to CHANGELOG.md" ++ LF ++ LF ++ "Signed-off-by: Ankit Saurabh <sauraank@amazon.co.uk>" ++ LF ++ LF ++ "* Added description of changes in changelog" ++ LF ++ LF ++ "Signed-off-by: Ankit Saurabh <sauraank@amazon.co.uk>" ++ LF ++ LF ++ "* Added PR in the changelog" ++ LF ++ LF ++ "Signed-off-by: Ankit Saurabh <sauraank@amazon.co.uk>" ++ LF ++ LF ++ "* Added PR in the changelog" ++ LF ++ LF ++ "Signed-off-by: Ankit Saurabh <sauraank@amazon.co.uk>" ++ LF ++ LF ++ "---------" ++ LF ++ LF ++ "Signed-off-by: Ankit Saurabh <sauraank@amazon.co.uk>"));
      ("timestamp", JStr "2023-09-01T09:11:10Z");
      ("tree_id", JStr "eace6e6893afca2d09c22b628c500710f6a04933");
      ("url", JStr "https://github.com/awslabs/mountpoint-s3/commit/7643a22ac362e6ace91b2a266f4cc91b7e6570bc") ]);
    ("date", JNum 1693561670598);
    ("tool", JStr "customSmallerIsBetter");
    ("benches", JArr [
      JObj [("name", JStr "readdir_100"); ("value", JNum 0.075); ("unit", JStr "seconds")];
      JObj [("name", JStr "readdir_1000"); ("value", JNum 0.196); ("unit", JStr "seconds")];
      JObj [("name", JStr "readdir_10000"); ("value", JNum 1.154); ("unit", JStr "seconds")];
      JObj [("name", JStr "readdir_100000"); ("value", JNum 10.667); ("unit", JStr "seconds")];
      JObj [
        ("name", JStr "time_to_first_byte_read");
        ("value", JNum 79.9257521);
        ("unit", JStr "milliseconds") ];
      JObj [
        ("name", JStr "time_to_first_byte_read_small_file");
        ("value", JNum 75.0004244);
        ("unit", JStr "milliseconds") ] ]) ].

Definition run_08 : JsValue :=
  JObj [
    ("commit", JObj [
      ("author", JObj [
        ("email", JStr "monthonk@amazon.com");
        ("name", JStr "Monthon Klongklaew");
        ("username", JStr "monthonk") ]);
      ("committer", JObj [
        ("email", JStr "noreply@github.com");
        ("name", JStr "GitHub");
        ("username", JStr "web-flow") ]);
      ("distinct", JBool false);
      ("id", JStr "cc7f31e0f7db834b907ad84760c945c97f675f57");
      ("message", JStr ("Update documentation for live editing use case (#491)" ++ LF ++ LF ++ "* Make it clear that live editing is not a good fit for mountpoint" ++ LF ++ LF ++ "Signed-off-by: Monthon Klongklaew <monthonk@amazon.com>" ++ LF ++ LF ++ "* Update README.md" ++ LF ++ LF ++ "Co-authored-by: James Bornholt <jamesbornholt@gmail.com>" ++ LF ++ "Signed-off-by: Monthon Klongklaew <monthonk@amazon.com>" ++ LF ++ LF ++ "---------" ++ LF ++ LF ++ "Signed-off-by: Monthon Klongklaew <monthonk@amazon.com>" ++ LF ++ "Co-authored-by: James Bornholt <jamesbornholt@gmail.com>"));
      ("timestamp", JStr "2023-09-01T14:27:57Z");
      ("tree_id", JStr "83b64928c20eeb775938d8a370c161616c10a3f3");
      ("url", JStr "https://github.com/awslabs/mountpoint-s3/commit/cc7f31e0f7db834b907ad84760c945c97f675f57") ]);
    ("date", JNum 1693580669985);
    ("tool", JStr "customSmallerIsBetter");
    ("benches", JArr [
      JObj [("name", JStr "readdir_100"); ("value", JNum 0.07); ("unit", JStr "seconds")];
      JObj [("name", JStr "readdir_1000"); ("value", JNum 0.185); ("unit", JStr "seconds")];
      JObj [("name", JStr "readdir_10000"); ("value", JNum 1.107); ("unit", JStr "seconds")];
      JObj [("name", JStr "readdir_100000"); ("value", JNum 10.633); ("unit", JStr "seconds")];
      JObj [
        ("name", JStr "time_to_first_byte_read");
        ("value", JNum 72.44031659999999);
        ("unit", JStr "milliseconds") ];
      JObj [
        ("name", JStr "time_to_first_byte_read_small_file");
        ("value", JNum 96.3176158);
        ("unit", JStr "milliseconds") ] ]) ].

Definition run_09 : JsValue :=
  JObj [
    ("commit", JObj [
      ("author", JObj [
        ("email", JStr "monthonk@amazon.com");
        ("name", JStr "Monthon Klongklaew");
        ("username", JStr "monthonk") ]);
      ("committer", JObj [
        ("email", JStr "noreply@github.com");
        ("name", JStr "GitHub");
        ("username", JStr "web-flow") ]);
      ("distinct", JBool true);
      ("id", JStr "efb334dc6dbb1c72f21be20d26377ccf79989166");
      ("message", JStr ("Change release title in the workflow (#496)" ++ LF ++ LF ++ "Signed-off-by: Monthon Klongklaew <monthonk@amazon.com>"));
      ("timestamp", JStr "2023-09-01T14:28:08Z");
      ("tree_id", JStr "62869c00cee5eb34bd3ed0e8acf104e409bde630");
      ("url", JStr "https://github.com/awslabs/mountpoint-s3/commit/efb334dc6dbb1c72f21be20d26377ccf79989166") ]);
    ("date", JNum 1693580684165);
    ("tool", JStr "customSmallerIsBetter");
    ("benches", JArr [
      JObj [("name", JStr "readdir_100"); ("value", JNum 0.077); ("unit", JStr "seconds")];
      JObj [("name", JStr "readdir_1000"); ("value", JNum 0.181); ("unit", JStr "seconds")];
      JObj [("name", JStr "readdir_10000"); ("value", JNum 1.123); ("unit", JStr "seconds")];
      JObj [("name", JStr "readdir_100000"); ("value", JNum 10.754); ("unit", JStr "seconds")];
      JObj [
        ("name", JStr "time_to_first_byte_read");
        ("value", JNum 57.065677);
        ("unit", JStr "milliseconds") ];
      JObj [
        ("name", JStr "time_to_first_byte_read_small_file");
        ("value", JNum 78.18084990000001);
        ("unit", JStr "milliseconds") ] ]) ].

Definition run_10 : JsValue :=
  JObj [
    ("commit", JObj [
      ("author", JObj [
        ("email", JStr "sauraank@amazon.co.uk");
        ("name", JStr "Ankit Saurabh");
        ("username", JStr "sauraank") ]);
      ("committer", JObj [
        ("email", JStr "noreply@github.com");
        ("name", JStr "GitHub");
        ("username", JStr "web-flow") ]);
      ("distinct", JBool true);
      ("id", JStr "534c3ed7f53289587b9aa47778a7ffa76109f81e");
      ("message", JStr ("Added Unreleased section in changelog (#497)" ++ LF ++ LF ++ "Signed-off-by: Ankit Saurabh <sauraank@amazon.co.uk>"));
      ("timestamp", JStr "2023-09-01T15:57:58Z");
      ("tree_id", JStr "7fb39eccb7cba98135a54cd7b5f5f4eeeb3dfd9f");
      ("url", JStr "https://github.com/awslabs/mountpoint-s3/commit/534c3ed7f53289587b9aa47778a7ffa76109f81e") ]);
    ("date", JNum 1693585713065);
    ("tool", JStr "customSmallerIsBetter");
    ("benches", JArr [
      JObj [("name", JStr "readdir_100"); ("value", JNum 0.081); ("unit", JStr "seconds")];
      JObj [("name", JStr "readdir_1000"); ("value", JNum 0.175); ("unit", JStr "seconds")];
      JObj [("name", JStr "readdir_10000"); ("value", JNum 1.165); ("unit", JStr "seconds")];
      JObj [("name", JStr "readdir_100000"); ("value", JNum 10.808); ("unit", JStr "seconds")];
      JObj [
        ("name", JStr "time_to_first_byte_read");
        ("value", JNum 64.1876625);
        ("unit", JStr "milliseconds") ];
      JObj [
        ("name", JStr "time_to_first_byte_read_small_file");
        ("value", JNum 66.2393769);
        ("unit", JStr "milliseconds") ] ]) ].

Definition run_11 : JsValue :=
  JObj [
    ("commit", JObj [
      ("author", JObj [
        ("email", JStr "monthonk@amazon.com");
        ("name", JStr "Monthon Klongklaew");
        ("username", JStr "monthonk") ]);
      ("committer", JObj [
        ("email", JStr "noreply@github.com");
        ("name", JStr "GitHub");
        ("username", JStr "web-flow") ]);
      ("distinct", JBool true);
      ("id", JStr "b632bbe9645f1f6af26ed839e791b8a34ab74b36");
      ("message", JStr ("Use default thread config for benchmark (#504)" ++ LF ++ LF ++ "Signed-off-by: Monthon Klongklaew <monthonk@amazon.com>"));
      ("timestamp", JStr "2023-09-06T13:14:32Z");
      ("tree_id", JStr "9c286583dea66a5ed85a09f85bd51c4bc1938e6b");
      ("url", JStr "https://github.com/awslabs/mountpoint-s3/commit/b632bbe9645f1f6af26ed839e791b8a34ab74b36") ]);
    ("date", JNum 1694008263721);
    ("tool", JStr "customSmallerIsBetter");
    ("benches", JArr [
      JObj [("name", JStr "readdir_100"); ("value", JNum 0.071); ("unit", JStr "seconds")];
      JObj [("name", JStr "readdir_1000"); ("value", JNum 0.169); ("unit", JStr "seconds")];
      JObj [("name", JStr "readdir_10000"); ("value", JNum 1.086); ("unit", JStr "seconds")];
      JObj [("name", JStr "readdir_100000"); ("value", JNum 10.588); ("unit", JStr "seconds")];
      JObj [
        ("name", JStr "time_to_first_byte_read");
        ("value", JNum 70.1583657);
        ("unit", JStr "milliseconds") ];
      JObj [
        ("name", JStr "time_to_first_byte_read_small_file");
        ("value", JNum 55.906332);
        ("unit", JStr "milliseconds") ] ]) ].

Definition run_12 : JsValue :=
  JObj [
    ("commit", JObj [
      ("author", JObj [
        ("email", JStr "djonesoa@amazon.com");
        ("name", JStr "Daniel Carl Jones");
        ("username", JStr "dannycjones") ]);
      ("committer", JObj [
        ("email", JStr "noreply@github.com");
        ("name", JStr "GitHub");
        ("username", JStr "web-flow") ]);
      ("distinct", JBool false);
      ("id", JStr "4db11adabc77c365d052ad99b4d64fd19b7e73bb");
      ("message", JStr ("Cancel unused in-flight prefetch tasks (#505)" ++ LF ++ LF ++ "Previously, mountpoint-s3 would not cancel prefetch tasks that it was going to ignore." ++ LF ++ "Instead, they would continue to be polled by the executor despite the results never being checked." ++ LF ++ "This change ensures that the task handles are dropped which cancels the task/future." ++ LF ++ LF ++ "In the future, we may want to retain some of these tasks where the prefetcher may still be able to make use of them." ++ LF ++ LF ++ "Signed-off-by: Daniel Carl Jones <djonesoa@amazon.com>"));
      ("timestamp", JStr "2023-09-06T16:52:01Z");
      ("tree_id", JStr "a0e86d27049a74a659b94beb839ff541891b1e61");
      ("url", JStr "https://github.com/awslabs/mountpoint-s3/commit/4db11adabc77c365d052ad99b4d64fd19b7e73bb") ]);
    ("date", JNum 1694021415915);
    ("tool", JStr "customSmallerIsBetter");
    ("benches", JArr [
      JObj [("name", JStr "readdir_100"); ("value", JNum 0.072); ("unit", JStr "seconds")];
      JObj [("name", JStr "readdir_1000"); ("value", JNum 0.188); ("unit", JStr "seconds")];
      JObj [("name", JStr "readdir_10000"); ("value", JNum 1.207); ("unit", JStr "seconds")];
      JObj [("name", JStr "readdir_100000"); ("value", JNum 11.24); ("unit", JStr "seconds")];
      JObj [
        ("name", JStr "time_to_first_byte_read");
        ("value", JNum 84.4224647);
        ("unit", JStr "milliseconds") ];
      JObj [
        ("name", JStr "time_to_first_byte_read_small_file");
        ("value", JNum 83.5045155);
        ("unit", JStr "milliseconds") ] ]) ].

Definition run_13 : JsValue :=
  JObj [
    ("commit", JObj [
      ("author", JObj [
        ("email", JStr "sauraank@amazon.co.uk");
        ("name", JStr "Ankit Saurabh");
        ("username", JStr "sauraank") ]);
      ("committer", JObj [
        ("email", JStr "noreply@github.com");
        ("name", JStr "GitHub");
        ("username", JStr "web-flow") ]);
      ("distinct", JBool true);
      ("id", JStr "57d1bd6e525131ab58cd6a449e735aa04d9a06c3");
      ("message", JStr ("Added accesspoint variables in integration.yml (#508)" ++ LF ++ LF ++ "Signed-off-by: Ankit Saurabh <sauraank@amazon.co.uk>"));
      ("timestamp", JStr "2023-09-07T16:56:58Z");
      ("tree_id", JStr "9d5fa6f294a3f3fe2d3b77943c85db1ed244f855");
      ("url", JStr "https://github.com/awslabs/mountpoint-s3/commit/57d1bd6e525131ab58cd6a449e735aa04d9a06c3") ]);
    ("date", JNum 1694108055549);
    ("tool", JStr "customSmallerIsBetter");
    ("benches", JArr [
      JObj [("name", JStr "readdir_100"); ("value", JNum 0.074); ("unit", JStr "seconds")];
      JObj [("name", JStr "readdir_1000"); ("value", JNum 0.194); ("unit", JStr "seconds")];
      JObj [("name", JStr "readdir_10000"); ("value", JNum 1.132); ("unit", JStr "seconds")];
      JObj [("name", JStr "readdir_100000"); ("value", JNum 10.934); ("unit", JStr "seconds")];
      JObj [
        ("name", JStr "time_to_first_byte_read");
        ("value", JNum 76.797243);
        ("unit", JStr "milliseconds") ];
      JObj [
        ("name", JStr "time_to_first_byte_read_small_file");
        ("value", JNum 80.8760978);
        ("unit", JStr "milliseconds") ] ]) ].

Definition run_14 : JsValue :=
  JObj [
    ("commit", JObj [
      ("author", JObj [
        ("email", JStr "sauraank@amazon.co.uk");
        ("name", JStr "Ankit Saurabh");
        ("username", JStr "sauraank") ]);
      ("committer", JObj [
        ("email", JStr "noreply@github.com");
        ("name", JStr "GitHub");
        ("username", JStr "web-flow") ]);
      ("distinct", JBool false);
      ("id", JStr "0a8bb28009e12b99bbb0f73017ecea7a5dfed31a");
      ("message", JStr ("Removed extra $ from environment variable for MRAP (#514)" ++ LF ++ LF ++ "Signed-off-by: Ankit Saurabh <sauraank@amazon.co.uk>"));
      ("timestamp", JStr "2023-09-13T16:40:54Z");
      ("tree_id", JStr "7c1b6b7fb7310752d7fc7d4fc4d08d6d2cd75e4d");
      ("url", JStr "https://github.com/awslabs/mountpoint-s3/commit/0a8bb28009e12b99bbb0f73017ecea7a5dfed31a") ]);
    ("date", JNum 1694625411879);
    ("tool", JStr "customSmallerIsBetter");
    ("benches", JArr [
      JObj [("name", JStr "readdir_100"); ("value", JNum 0.08); ("unit", JStr "seconds")];
      JObj [("name", JStr "readdir_1000"); ("value", JNum 0.169); ("unit", JStr "seconds")];
      JObj [("name", JStr "readdir_10000"); ("value", JNum 1.153); ("unit", JStr "seconds")];
      JObj [("name", JStr "readdir_100000"); ("value", JNum 10.813); ("unit", JStr "seconds")];
      JObj [
        ("name", JStr "time_to_first_byte_read");
        ("value", JNum 79.9100509);
        ("unit", JStr "milliseconds") ];
      JObj [
        ("name", JStr "time_to_first_byte_read_small_file");
        ("value", JNum 79.454774);
        ("unit", JStr "milliseconds") ] ]) ].

Definition run_15 : JsValue :=
  JObj [
    ("commit", JObj [
      ("author", JObj [
        ("email", JStr "sauraank@amazon.co.uk");
        ("name", JStr "Ankit Saurabh");
        ("username", JStr "sauraank") ]);
      ("committer", JObj [
        ("email", JStr "noreply@github.com");
        ("name", JStr "GitHub");
        ("username", JStr "web-flow") ]);
      ("distinct", JBool true);
      ("id", JStr "8086f0e26044217b16caa21a929f6b3ed8e839b8");
      ("message", JStr ("Added accesspoint and transfer acceleration tests (#417)" ++ LF ++ LF ++ "Signed-off-by: Ankit Saurabh <sauraank@amazon.co.uk>"));
      ("timestamp", JStr "2023-09-14T16:23:48Z");
      ("tree_id", JStr "c760de3ebbc76103bf93522b9a1e4d376c38e62b");
      ("url", JStr "https://github.com/awslabs/mountpoint-s3/commit/8086f0e26044217b16caa21a929f6b3ed8e839b8") ]);
    ("date", JNum 1694711122616);
    ("tool", JStr "customSmallerIsBetter");
    ("benches", JArr [
      JObj [("name", JStr "readdir_100"); ("value", JNum 0.088); ("unit", JStr "seconds")];
      JObj [("name", JStr "readdir_1000"); ("value", JNum 0.18); ("unit", JStr "seconds")];
      JObj [("name", JStr "readdir_10000"); ("value", JNum 1.151); ("unit", JStr "seconds")];
      JObj [("name", JStr "readdir_100000"); ("value", JNum 10.576); ("unit", JStr "seconds")];
      JObj [
        ("name", JStr "time_to_first_byte_read");
        ("value", JNum 105.402678);
        ("unit", JStr "milliseconds") ];
      JObj [
        ("name", JStr "time_to_first_byte_read_small_file");
        ("value", JNum 90.94622240000001);
        ("unit", JStr "milliseconds") ] ]) ].

Definition run_16 : JsValue :=
  JObj [
    ("commit", JObj [
      ("author", JObj [
        ("email", JStr "bornholt@amazon.com");
        ("name", JStr "James Bornholt");
        ("username", JStr "jamesbornholt") ]);
      ("committer", JObj [
        ("email", JStr "noreply@github.com");
        ("name", JStr "GitHub");
        ("username", JStr "web-flow") ]);
      ("distinct", JBool false);
      ("id", JStr "7bb17a04869ff7b4d6ae16148b3fab9d0e3bdc0a");
      ("message", JStr ("Rearrange client crate and improve its docs (#511)" ++ LF ++ LF ++ "* Rearrange client crate and improve its docs" ++ LF ++ LF ++ "The current docs page for the client crate is pretty indecipherable." ++ LF ++ "While we're not currently suggesting customers use it directly, we know" ++ LF ++ "a few already are, and we'd like the docs to be legible. So this commit" ++ LF ++ "moves around a bunch of the public structure of the client crate to be" ++ LF ++ "consistent and intentional." ++ LF ++ LF ++ "There's no semantics changes here, this is all just rearranging and" ++ LF ++ "commenting stuff that wasn't commented before." ++ LF ++ LF ++ "Signed-off-by: James Bornholt <bornholt@amazon.com>" ++ LF ++ LF ++ "* Fix typo" ++ LF ++ LF ++ "Signed-off-by: James Bornholt <bornholt@amazon.com>" ++ LF ++ LF ++ "---------" ++ LF ++ LF ++ "Signed-off-by: James Bornholt <bornholt@amazon.com>"));
      ("timestamp", JStr "2023-09-15T14:38:12Z");
      ("tree_id", JStr "907857ff1594a237336e10962550779309db6d91");
      ("url", JStr "https://github.com/awslabs/mountpoint-s3/commit/7bb17a04869ff7b4d6ae16148b3fab9d0e3bdc0a") ]);
    ("date", JNum 1694790930839);
    ("tool", JStr "customSmallerIsBetter");
    ("benches", JArr [
      JObj [("name", JStr "readdir_100"); ("value", JNum 0.079); ("unit", JStr "seconds")];
      JObj [("name", JStr "readdir_1000"); ("value", JNum 0.166); ("unit", JStr "seconds")];
      JObj [("name", JStr "readdir_10000"); ("value", JNum 1.149); ("unit", JStr "seconds")];
      JObj [("name", JStr "readdir_100000"); ("value", JNum 10.6); ("unit", JStr "seconds")];
      JObj [
        ("name", JStr "time_to_first_byte_read");
        ("value", JNum 86.0456029);
        ("unit", JStr "milliseconds") ];
      JObj [
        ("name", JStr "time_to_first_byte_read_small_file");
        ("value", JNum 80.02400279999999);
        ("unit", JStr "milliseconds") ] ]) ].

Definition run_17 : JsValue :=
  JObj [
    ("commit", JObj [
      ("author", JObj [
        ("email", JStr "djonesoa@amazon.com");
        ("name", JStr "Daniel Carl Jones");
        ("username", JStr "dannycjones") ]);
      ("committer", JObj [
        ("email", JStr "noreply@github.com");
        ("name", JStr "GitHub");
        ("username", JStr "web-flow") ]);
      ("distinct", JBool false);
      ("id", JStr "b89117ad1384490a3c226e9f7cd90ec1b6d19124");
      ("message", JStr ("Update HistogramFn impl to log failure to record rather than panic (#513)" ++ LF ++ LF ++ "* Update HistogramFn impl to log failure to record rather than panic" ++ LF ++ LF ++ "When writing 50GiB of data to a file, mountpoint-s3 panicked due to an unexpected " ++ DQ ++ "ValueOutOfRangeResizeDisabled" ++ DQ ++ " error." ++ LF ++ "When creating the Histogram, we limit it with an upper bound of 300000000. For time durations in microsecond precision, that's 300 seconds." ++ LF ++ LF ++ "This change allows the histogram to fail only with a log message for values in excess of 300 seconds." ++ LF ++ LF ++ "Signed-off-by: Daniel Carl Jones <djonesoa@amazon.com>" ++ LF ++ LF ++ "* Update Histogram to auto-resize" ++ LF ++ LF ++ "Previously, the histogram would be capped at a maximum value of 300,000,000. Now, the histogram will automatically resize." ++ LF ++ "This does come with the implication that more memory may be allocated if values of larger than 300,000,000 are recorded." ++ LF ++ LF ++ "Signed-off-by: Daniel Carl Jones <djonesoa@amazon.com>" ++ LF ++ LF ++ "---------" ++ LF ++ LF ++ "Signed-off-by: Daniel Carl Jones <djonesoa@amazon.com>"));
      ("timestamp", JStr "2023-09-15T14:39:02Z");
      ("tree_id", JStr "b6691d6b356ac67b2510cad257c728d0ac670e6a");
      ("url", JStr "https://github.com/awslabs/mountpoint-s3/commit/b89117ad1384490a3c226e9f7cd90ec1b6d19124") ]);
    ("date", JNum 1694791039908);
    ("tool", JStr "customSmallerIsBetter");
    ("benches", JArr [
      JObj [("name", JStr "readdir_100"); ("value", JNum 0.081); ("unit", JStr "seconds")];
      JObj [("name", JStr "readdir_1000"); ("value", JNum 0.174); ("unit", JStr "seconds")];
      JObj [("name", JStr "readdir_10000"); ("value", JNum 1.172); ("unit", JStr "seconds")];
      JObj [("name", JStr "readdir_100000"); ("value", JNum 10.873); ("unit", JStr "seconds")];
      JObj [
        ("name", JStr "time_to_first_byte_read");
        ("value", JNum 67.5820458);
        ("unit", JStr "milliseconds") ];
      JObj [
        ("name", JStr "time_to_first_byte_read_small_file");
        ("value", JNum 71.34666390000001);
        ("unit", JStr "milliseconds") ] ]) ].

Definition run_18 : JsValue :=
  JObj [
    ("commit", JObj [
      ("author", JObj [
        ("email", JStr "djonesoa@amazon.com");
        ("name", JStr "Daniel Carl Jones");
        ("username", JStr "dannycjones") ]);
      ("committer", JObj [
        ("email", JStr "noreply@github.com");
        ("name", JStr "GitHub");
        ("username", JStr "web-flow") ]);
      ("distinct", JBool true);
      ("id", JStr "171c4200df20223e831dcc856103d52bc4029e15");
      ("message", JStr ("Improve logging and error handling in benchmark script (#507)" ++ LF ++ LF ++ "Signed-off-by: Daniel Carl Jones <djonesoa@amazon.com>"));
      ("timestamp", JStr "2023-09-15T14:40:01Z");
      ("tree_id", JStr "5ceef93a7ccacff27d8a3786e112104808a86f98");
      ("url", JStr "https://github.com/awslabs/mountpoint-s3/commit/171c4200df20223e831dcc856103d52bc4029e15") ]);
    ("date", JNum 1694791121977);
    ("tool", JStr "customSmallerIsBetter");
    ("benches", JArr [
      JObj [("name", JStr "readdir_100"); ("value", JNum 0.076); ("unit", JStr "seconds")];
      JObj [("name", JStr "readdir_1000"); ("value", JNum 0.178); ("unit", JStr "seconds")];
      JObj [("name", JStr "readdir_10000"); ("value", JNum 1.184); ("unit", JStr "seconds")];
      JObj [("name", JStr "readdir_100000"); ("value", JNum 10.662); ("unit", JStr "seconds")];
      JObj [
        ("name", JStr "time_to_first_byte_read");
        ("value", JNum 58.519034);
        ("unit", JStr "milliseconds") ];
      JObj [
        ("name", JStr "time_to_first_byte_read_small_file");
        ("value", JNum 75.18925309999999);
        ("unit", JStr "milliseconds") ] ]) ].

Definition run_19 : JsValue :=
  JObj [
    ("commit", JObj [
      ("author", JObj [
        ("email", JStr "bornholt@amazon.com");
        ("name", JStr "James Bornholt");
        ("username", JStr "jamesbornholt") ]);
      ("committer", JObj [
        ("email", JStr "noreply@github.com");
        ("name", JStr "GitHub");
        ("username", JStr "web-flow") ]);
      ("distinct", JBool true);
      ("id", JStr "11def4796d9479f8462fc78c7195dd5296c8b08f");
      ("message", JStr ("Build releases on CentOS 7 (#517)" ++ LF ++ LF ++ "This gets us compatibility back to glibc 2.17. The tricky part is that" ++ CR ++ LF ++ "CentOS 7 by default packages a GCC that's too old to build the CRT and a" ++ CR ++ LF ++ "Clang that's too old to run bindgen. But they also distribute optional" ++ CR ++ LF ++ "packages (devtoolsets) that update these toolchains and stick them in a" ++ CR ++ LF ++ "separate directory. So this change adopts those, and tweaks the" ++ CR ++ LF ++ "environment variables on the builder to point at the newer tools." ++ CR ++ LF ++ CR ++ LF ++ "Signed-off-by: James Bornholt <bornholt@amazon.com>"));
      ("timestamp", JStr "2023-09-19T10:15:06+01:00");
      ("tree_id", JStr "e142d4d3790b37b2345d8eccbb771534675adc83");
      ("url", JStr "https://github.com/awslabs/mountpoint-s3/commit/11def4796d9479f8462fc78c7195dd5296c8b08f") ]);
    ("date", JNum 1695115549054);
    ("tool", JStr "customSmallerIsBetter");
    ("benches", JArr [
      JObj [("name", JStr "readdir_100"); ("value", JNum 0.077); ("unit", JStr "seconds")];
      JObj [("name", JStr "readdir_1000"); ("value", JNum 0.173); ("unit", JStr "seconds")];
      JObj [("name", JStr "readdir_10000"); ("value", JNum 1.114); ("unit", JStr "seconds")];
      JObj [("name", JStr "readdir_100000"); ("value", JNum 10.653); ("unit", JStr "seconds")];
      JObj [
        ("name", JStr "time_to_first_byte_read");
        ("value", JNum 97.37342170000001);
        ("unit", JStr "milliseconds") ];
      JObj [
        ("name", JStr "time_to_first_byte_read_small_file");
        ("value", JNum 78.5651175);
        ("unit", JStr "milliseconds") ] ]) ].

Definition BENCHMARK_DATA : JsValue :=
  JObj [
    ("lastUpdate", JNum 1695115549634);
    ("repoUrl", JStr "https://github.com/awslabs/mountpoint-s3");
    ("entries", JObj [
      ("Benchmark", JArr [
        run_00; run_01; run_02; run_03; run_04;
        run_05; run_06; run_07; run_08; run_09;
        run_10; run_11; run_12; run_13; run_14;
        run_15; run_16; run_17; run_18; run_19 ]) ]) ].

(** ** Reading the file: suites, run records, measurements *)

(** [entries] maps a suite name to its array of run records. *)
Definition suites (d : JsValue) : list (string * JsValue) :=
  properties (obj_field "entries" d).

(** The run records of one suite, in array order. *)
Definition suite_runs (suite : string) (d : JsValue) : list JsValue :=
  elements (obj_field suite (obj_field "entries" d)).

(** The run records of every suite. *)
Definition all_runs (d : JsValue) : list JsValue :=
  flat_map (fun kv => elements (snd kv)) (suites d).

Definition commit (run : JsValue) : JsValue := obj_field "commit" run.

Definition benches (run : JsValue) : list JsValue :=
  elements (obj_field "benches" run).

(** The names of a run's measurements, in array order. *)
Definition bench_names (run : JsValue) : list string :=
  flat_map (fun b => match str_field "name" b with
                     | Some n => [n]
                     | None => []
                     end) (benches run).

(** [(name, unit)] of a measurement. *)
Definition name_unit (b : JsValue) : option (string * string) :=
  match str_field "name" b, str_field "unit" b with
  | Some n, Some u => Some (n, u)
  | _, _ => None
  end.

(** ** Numbers *)

(** A literal evaluates to a finite double exactly when its magnitude is
    below the rounding boundary between the largest double and 2^1024. *)
Definition overflow_threshold : Z := 2 ^ 1024 - 2 ^ 970.

Definition js_finite (q : Q) : Prop :=
  (Qabs q < inject_Z overflow_threshold)%Q.

Definition js_finiteb (q : Q) : bool :=
  negb (Qle_bool (inject_Z overflow_threshold) (Qabs q)).

(** Integers up to 2^53 in magnitude are held exactly by a double. *)
Definition max_exact_integer : Z := 2 ^ 53.

Definition is_integer (q : Q) : Prop :=
  exists z : Z, (q == inject_Z z)%Q /\ Z.abs z <= max_exact_integer.

Definition is_integerb (q : Q) : bool :=
  Z.eqb (Qnum q mod Zpos (Qden q)) 0 &&
  Z.leb (Z.abs (Qnum q / Zpos (Qden q))) max_exact_integer.

(** ** The interface shape *)

Module Shape.

Inductive Schema : Type :=
| SBoolean
| SNumber
| SInteger
| SString
| SObject                                   (* an object, contents left open *)
| SArray (elt : Schema)
| SMap (elt : Schema)                       (* any keys, every value an [elt] *)
| SRecord (fields : list (string * Schema)). (* the named fields are present *)

Fixpoint Conforms (s : Schema) (v : JsValue) : Prop :=
  match s with
  | SBoolean => exists b, v = JBool b
  | SNumber => exists q, v = JNum q
  | SInteger => exists q, v = JNum q /\ is_integer q
  | SString => exists t, v = JStr t
  | SObject => exists ps, v = JObj ps
  | SArray e => exists xs, v = JArr xs /\ Forall (Conforms e) xs
  | SMap e => exists ps, v = JObj ps /\ Forall (fun kv => Conforms e (snd kv)) ps
  | SRecord fs =>
      (exists ps, v = JObj ps) /\
      (fix all (fs : list (string * Schema)) : Prop :=
         match fs with
         | [] => True
         | (k, s') :: fs' =>
             (exists x, field k v = Some x /\ Conforms s' x) /\ all fs'
         end) fs
  end.

Fixpoint check (s : Schema) (v : JsValue) : bool :=
  match s with
  | SBoolean => match v with JBool _ => true | _ => false end
  | SNumber => match v with JNum _ => true | _ => false end
  | SInteger => match v with JNum q => is_integerb q | _ => false end
  | SString => match v with JStr _ => true | _ => false end
  | SObject => match v with JObj _ => true | _ => false end
  | SArray e => match v with JArr xs => forallb (check e) xs | _ => false end
  | SMap e =>
      match v with
      | JObj ps => forallb (fun kv => check e (snd kv)) ps
      | _ => false
      end
  | SRecord fs =>
      match v with
      | JObj _ =>
          (fix all (fs : list (string * Schema)) : bool :=
             match fs with
             | [] => true
             | (k, s') :: fs' =>
                 match field k v with
                 | Some x => check s' x
                 | None => false
                 end && all fs'
             end) fs
      | _ => false
      end
  end.

(** Section 6 of the specification, field by field. *)
Definition measurement : Schema :=
  SRecord [("name", SString); ("value", SNumber); ("unit", SString)].

Definition commit_metadata : Schema :=
  SRecord [("author", SObject); ("committer", SObject);
           ("distinct", SBoolean); ("id", SString); ("message", SString);
           ("timestamp", SString); ("tree_id", SString); ("url", SString)].

Definition run_record : Schema :=
  SRecord [("commit", commit_metadata); ("date", SInteger);
           ("tool", SString); ("benches", SArray measurement)].

Definition benchmark_data : Schema :=
  SRecord [("lastUpdate", SInteger); ("repoUrl", SString);
           ("entries", SMap (SArray run_record))].

End Shape.

(** ** ISO 8601 date-times

    The calendar date and time of day in extended format, followed by a
    zone designator: [Z] for UTC or a signed [hh:mm] offset. *)

Module ISO8601.

Inductive Zone : Type :=
| UTC
| Offset (west : bool) (hh mm : Z).

Record DateTime : Type := mkDateTime {
  year : Z; month : Z; day : Z;
  hour : Z; minute : Z; second : Z;
  zone : Zone
}.

Definition between (lo x hi : Z) : bool := Z.leb lo x && Z.leb x hi.

Definition leap_year (y : Z) : bool :=
  Z.eqb (y mod 4) 0 && (negb (Z.eqb (y mod 100) 0) || Z.eqb (y mod 400) 0).

Definition days_in_month (y m : Z) : Z :=
  match m with
  | 1 | 3 | 5 | 7 | 8 | 10 | 12 => 31
  | 4 | 6 | 9 | 11 => 30
  | 2 => if leap_year y then 29 else 28
  | _ => 0
  end.

Definition valid_zone (z : Zone) : bool :=
  match z with
  | UTC => true
  | Offset _ hh mm => between 0 hh 23 && between 0 mm 59
  end.

Definition valid (dt : DateTime) : bool :=
  between 0 (year dt) 9999 &&
  between 1 (month dt) 12 &&
  between 1 (day dt) (days_in_month (year dt) (month dt)) &&
  between 0 (hour dt) 23 &&
  between 0 (minute dt) 59 &&
  between 0 (second dt) 59 &&
  valid_zone (zone dt).

(** *** Writing *)

Definition digit_char (d : Z) : ascii := ascii_of_nat (48 + Z.to_nat d).

Definition pad2 (n : Z) : string :=
  String (digit_char (n / 10)) (String (digit_char (n mod 10)) EmptyString).

Definition pad4 (n : Z) : string :=
  pad2 (n / 100) ++ pad2 (n mod 100).

Definition print_zone (z : Zone) : string :=
  match z with
  | UTC => "Z"
  | Offset west hh mm => (if west then "-" else "+") ++ pad2 hh ++ ":" ++ pad2 mm
  end.

Definition print (dt : DateTime) : string :=
  pad4 (year dt) ++ "-" ++ pad2 (month dt) ++ "-" ++ pad2 (day dt) ++ "T" ++
  pad2 (hour dt) ++ ":" ++ pad2 (minute dt) ++ ":" ++ pad2 (second dt) ++
  print_zone (zone dt).

(** *** Reading *)

Definition Parser (A : Type) : Type := string -> option (A * string).

Definition ret {A} (a : A) : Parser A := fun s => Some (a, s).

Definition bind {A B} (p : Parser A) (f : A -> Parser B) : Parser B :=
  fun s => match p s with
           | Some (a, rest) => f a rest
           | None => None
           end.

Notation "x <- p ;; q" := (bind p (fun x => q))
  (at level 61, p at next level, right associativity).
Notation "p ;; q" := (bind p (fun _ => q))
  (at level 61, right associativity).

Definition is_digit (c : ascii) : bool :=
  (48 <=? nat_of_ascii c)%nat && (nat_of_ascii c <=? 57)%nat.

Definition digit : Parser Z :=
  fun s => match s with
           | String c rest =>
               if is_digit c
               then Some (Z.of_nat (nat_of_ascii c - 48), rest)
               else None
           | EmptyString => None
           end.

Definition char (c : ascii) : Parser unit :=
  fun s => match s with
           | String c' rest => if Ascii.eqb c c' then Some (tt, rest) else None
           | EmptyString => None
           end.

Definition two_digits : Parser Z :=
  a <- digit ;; b <- digit ;; ret (10 * a + b).

Definition four_digits : Parser Z :=
  a <- two_digits ;; b <- two_digits ;; ret (100 * a + b).

Definition offset (west : bool) : Parser Zone :=
  hh <- two_digits ;; char ":" ;; mm <- two_digits ;; ret (Offset west hh mm).

Definition zone_designator : Parser Zone :=
  fun s => match s with
           | String c rest =>
               if Ascii.eqb c "Z" then Some (UTC, rest)
               else if Ascii.eqb c "+" then offset false rest
               else if Ascii.eqb c "-" then offset true rest
               else None
           | EmptyString => None
           end.

Definition date_time : Parser DateTime :=
  Y <- four_digits ;; char "-" ;; M <- two_digits ;; char "-" ;;
  D <- two_digits ;; char "T" ;;
  h <- two_digits ;; char ":" ;; m <- two_digits ;; char ":" ;;
  s <- two_digits ;;
  z <- zone_designator ;;
  ret (mkDateTime Y M D h m s z).

(** [parse s]: the date-time [s] denotes, when all of [s] is consumed and
    the fields are in range. *)
Definition parse (s : string) : option DateTime :=
  match date_time s with
  | Some (dt, EmptyString) => if valid dt then Some dt else None
  | _ => None
  end.

End ISO8601.

(** ** Properties of records, and their decision procedures *)

Definition known_units : list string := ["seconds"; "milliseconds"].

(** A measurement whose value is a finite, non-negative number and whose
    unit is known. *)
Definition measurement_ok (b : JsValue) : Prop :=
  exists q u,
    num_field "value" b = Some q /\ str_field "unit" b = Some u /\
    js_finite q /\ (0 <= q)%Q /\ In u known_units.

Definition measurement_okb (b : JsValue) : bool :=
  match num_field "value" b, str_field "unit" b with
  | Some q, Some u =>
      js_finiteb q && Qle_bool 0 q && existsb (String.eqb u) known_units
  | _, _ => false
  end.

(** [date_le a b]: both records carry a date and [a]'s is not after [b]'s. *)
Definition date_le (a b : JsValue) : Prop :=
  exists x y,
    num_field "date" a = Some x /\ num_field "date" b = Some y /\ (x <= y)%Q.

Definition date_leb (a b : JsValue) : bool :=
  match num_field "date" a, num_field "date" b with
  | Some x, Some y => Qle_bool x y
  | _, _ => false
  end.

Fixpoint dates_nondecreasing (runs : list JsValue) : bool :=
  match runs with
  | [] => true
  | a :: rest =>
      match rest with
      | [] => true
      | b :: _ => date_leb a b
      end && dates_nondecreasing rest
  end.

(** [not_after stamp run]: [run] carries a date and it is at most [stamp]. *)
Definition not_after (stamp : Q) (run : JsValue) : Prop :=
  exists d, num_field "date" run = Some d /\ (d <= stamp)%Q.

Definition not_afterb (stamp : Q) (run : JsValue) : bool :=
  match num_field "date" run with
  | Some d => Qle_bool d stamp
  | None => false
  end.

Definition is_lower_hex (c : ascii) : bool :=
  let n := nat_of_ascii c in
  ((48 <=? n) && (n <=? 57) || (97 <=? n) && (n <=? 102))%nat.

(** A commit whose id is forty lower-case hexadecimal digits and whose url
    is the repository's url, [/commit/] and the id. *)
Definition commit_ok (repo : string) (run : JsValue) : Prop :=
  exists id url,
    str_field "id" (commit run) = Some id /\
    str_field "url" (commit run) = Some url /\
    String.length id = 40%nat /\
    forallb is_lower_hex (list_ascii_of_string id) = true /\
    url = repo ++ "/commit/" ++ id.

Definition commit_okb (repo : string) (run : JsValue) : bool :=
  match str_field "id" (commit run), str_field "url" (commit run) with
  | Some id, Some url =>
      Nat.eqb (String.length id) 40 &&
      forallb is_lower_hex (list_ascii_of_string id) &&
      String.eqb url (repo ++ "/commit/" ++ id)
  | _, _ => false
  end.

(** A commit timestamp that is the ISO 8601 writing of a valid date-time. *)
Definition timestamp_ok (run : JsValue) : Prop :=
  exists ts dt,
    str_field "timestamp" (commit run) = Some ts /\
    ISO8601.valid dt = true /\ ts = ISO8601.print dt.

Definition timestamp_okb (run : JsValue) : bool :=
  match str_field "timestamp" (commit run) with
  | Some ts =>
      match ISO8601.parse ts with
      | Some _ => true
      | None => false
      end
  | None => false
  end.

(** The zone designator of a run's commit timestamp. *)
Definition timestamp_zone (run : JsValue) : option ISO8601.Zone :=
  match str_field "timestamp" (commit run) with
  | Some ts => option_map ISO8601.zone (ISO8601.parse ts)
  | None => None
  end.

(** The measurements every run of the latency benchmark reports. *)
Definition latency_measurements : list (string * string) :=
  [ ("readdir_100", "seconds");
    ("readdir_1000", "seconds");
    ("readdir_10000", "seconds");
    ("readdir_100000", "seconds");
    ("time_to_first_byte_read", "milliseconds");
    ("time_to_first_byte_read_small_file", "milliseconds") ].

(** The unit that goes with a measurement name. *)
Definition unit_by_name (n u : string) : Prop :=
  (String.prefix "readdir_" n = true -> u = "seconds") /\
  (String.prefix "time_to_first_byte_" n = true -> u = "milliseconds").

(** ** Further properties of records *)

Definition Qltb (x y : Q) : bool := negb (Qle_bool y x).

Fixpoint same_strings (a b : list string) : bool :=
  match a, b with
  | [], [] => true
  | x :: a', y :: b' => String.eqb x y && same_strings a' b'
  | _, _ => false
  end.

Definition run_keys : list string := ["commit"; "date"; "tool"; "benches"].

Definition commit_keys : list string :=
  ["author"; "committer"; "distinct"; "id"; "message"; "timestamp";
   "tree_id"; "url"].

Definition person_keys : list string := ["email"; "name"; "username"].

Definition measurement_keys : list string := ["name"; "value"; "unit"].

Definition author (run : JsValue) : JsValue := obj_field "author" (commit run).

Definition committer (run : JsValue) : JsValue :=
  obj_field "committer" (commit run).

(** A run record all of whose objects have exactly their listed properties,
    in the listed order. *)
Definition closed_run (run : JsValue) : Prop :=
  keys run = run_keys /\
  keys (commit run) = commit_keys /\
  keys (author run) = person_keys /\
  keys (committer run) = person_keys /\
  Forall (fun b => keys b = measurement_keys) (benches run).

Definition closed_runb (run : JsValue) : bool :=
  same_strings (keys run) run_keys &&
  same_strings (keys (commit run)) commit_keys &&
  same_strings (keys (author run)) person_keys &&
  same_strings (keys (committer run)) person_keys &&
  forallb (fun b => same_strings (keys b) measurement_keys) (benches run).

(** The shape of [author] and [committer]. *)
Definition person : Shape.Schema :=
  Shape.SRecord [("email", Shape.SString); ("name", Shape.SString);
                 ("username", Shape.SString)].

Definition tree_id_ok (run : JsValue) : Prop :=
  exists t,
    str_field "tree_id" (commit run) = Some t /\
    String.length t = 40%nat /\
    forallb is_lower_hex (list_ascii_of_string t) = true.

Definition tree_id_okb (run : JsValue) : bool :=
  match str_field "tree_id" (commit run) with
  | Some t =>
      Nat.eqb (String.length t) 40 &&
      forallb is_lower_hex (list_ascii_of_string t)
  | None => false
  end.

Definition commit_id (run : JsValue) : option string :=
  str_field "id" (commit run).

Definition option_string_eqb (a b : option string) : bool :=
  match a, b with
  | Some x, Some y => String.eqb x y
  | None, None => true
  | _, _ => false
  end.

Fixpoint distinctb (l : list (option string)) : bool :=
  match l with
  | [] => true
  | x :: rest => negb (existsb (option_string_eqb x) rest) && distinctb rest
  end.

(** [date_lt a b]: both records carry a date and [a]'s is before [b]'s. *)
Definition date_lt (a b : JsValue) : Prop :=
  exists x y,
    num_field "date" a = Some x /\ num_field "date" b = Some y /\ (x < y)%Q.

Definition date_ltb (a b : JsValue) : bool :=
  match num_field "date" a, num_field "date" b with
  | Some x, Some y => Qltb x y
  | _, _ => false
  end.

(** [consecutiveb rel l]: [rel] holds between every element of [l] and the
    one after it. *)
Fixpoint consecutiveb {A : Type} (rel : A -> A -> bool) (l : list A) : bool :=
  match l with
  | [] => true
  | a :: rest =>
      match rest with
      | [] => true
      | b :: _ => rel a b
      end && consecutiveb rel rest
  end.

(** *** Instants *)

(** Days from 1970-01-01 to the given day of the proleptic Gregorian
    calendar; years are counted from March so that the leap day comes
    last. *)
Definition days_from_civil (y m d : Z) : Z :=
  let y' := if Z.leb m 2 then y - 1 else y in
  let era := y' / 400 in
  let yoe := y' - era * 400 in
  let mp := if Z.leb m 2 then m + 9 else m - 3 in
  let doy := (153 * mp + 2) / 5 + d - 1 in
  let doe := yoe * 365 + yoe / 4 - yoe / 100 + doy in
  era * 146097 + doe - 719468.

(** Days from 0000-03-01 to March 1 of year [y]. *)
Definition year_days (y : Z) : Z :=
  let era := y / 400 in
  let yoe := y - era * 400 in
  era * 146097 + (yoe * 365 + yoe / 4 - yoe / 100).

(** Seconds that local time is ahead of UTC. *)
Definition offset_seconds (z : ISO8601.Zone) : Z :=
  match z with
  | ISO8601.UTC => 0
  | ISO8601.Offset west hh mm =>
      (if west then -1 else 1) * (hh * 3600 + mm * 60)
  end.

(** Milliseconds from the epoch to the instant a date-time denotes. *)
Definition epoch_ms (dt : ISO8601.DateTime) : Z :=
  (days_from_civil (ISO8601.year dt) (ISO8601.month dt) (ISO8601.day dt)
     * 86400
   + ISO8601.hour dt * 3600 + ISO8601.minute dt * 60 + ISO8601.second dt
   - offset_seconds (ISO8601.zone dt)) * 1000.

(** The instant of a run's commit, read from [commit.timestamp]. *)
Definition commit_instant (run : JsValue) : option Z :=
  match str_field "timestamp" (commit run) with
  | Some ts => option_map epoch_ms (ISO8601.parse ts)
  | None => None
  end.

(** A run captured no earlier than its commit was made. *)
Definition captured_after_commit (run : JsValue) : Prop :=
  exists t d,
    commit_instant run = Some t /\ num_field "date" run = Some d /\
    (inject_Z t <= d)%Q.

Definition captured_after_commitb (run : JsValue) : bool :=
  match commit_instant run, num_field "date" run with
  | Some t, Some d => Qle_bool (inject_Z t) d
  | _, _ => false
  end.

Definition commit_le (a b : JsValue) : Prop :=
  exists x y,
    commit_instant a = Some x /\ commit_instant b = Some y /\ x <= y.

Definition commit_leb (a b : JsValue) : bool :=
  match commit_instant a, commit_instant b with
  | Some x, Some y => Z.leb x y
  | _, _ => false
  end.

(** *** Measured values *)

Definition value_positive (b : JsValue) : Prop :=
  exists q, num_field "value" b = Some q /\ (0 < q)%Q.

Definition value_positiveb (b : JsValue) : bool :=
  match num_field "value" b with
  | Some q => Qltb 0 q
  | None => false
  end.

(** The value a run reports under a measurement name. *)
Definition bench_value (name : string) (run : JsValue) : option Q :=
  match find (fun b => match str_field "name" b with
                       | Some n => String.eqb n name
                       | None => false
                       end) (benches run) with
  | Some b => num_field "value" b
  | None => None
  end.

(** Listing a larger directory took longer. *)
Definition readdir_grows (run : JsValue) : Prop :=
  exists a b c d,
    bench_value "readdir_100" run = Some a /\
    bench_value "readdir_1000" run = Some b /\
    bench_value "readdir_10000" run = Some c /\
    bench_value "readdir_100000" run = Some d /\
    (a < b)%Q /\ (b < c)%Q /\ (c < d)%Q.

Definition readdir_growsb (run : JsValue) : bool :=
  match bench_value "readdir_100" run, bench_value "readdir_1000" run,
        bench_value "readdir_10000" run, bench_value "readdir_100000" run with
  | Some a, Some b, Some c, Some d => Qltb a b && Qltb b c && Qltb c d
  | _, _, _, _ => false
  end.

(** * Facts *)

(** ** Numbers *)

Lemma is_integerb_sound (q : Q) : is_integerb q = true -> is_integer q.
Proof.
  unfold is_integerb, is_integer.
  intros H. apply andb_true_iff in H as [Hmod Hsafe].
  apply Z.eqb_eq in Hmod. apply Z.leb_le in Hsafe.
  exists (Qnum q / Zpos (Qden q)). split; [|exact Hsafe].
  unfold Qeq, inject_Z. cbn [Qnum Qden].
  pose proof (Z.div_mod (Qnum q) (Zpos (Qden q)) ltac:(discriminate)) as E.
  rewrite Hmod in E. lia.
Qed.

Lemma js_finiteb_sound (q : Q) : js_finiteb q = true -> js_finite q.
Proof.
  unfold js_finiteb, js_finite. intros H.
  apply negb_true_iff in H. apply Qnot_le_lt. intros Hle.
  apply Qle_bool_iff in Hle. congruence.
Qed.

(** ** The shape checker decides conformance *)

Lemma check_sound : forall s v, Shape.check s v = true -> Shape.Conforms s v.
Proof.
  fix IH 1. intros s v. destruct s; cbn [Shape.check Shape.Conforms].
  - destruct v; try discriminate. eauto.
  - destruct v; try discriminate. eauto.
  - destruct v; try discriminate. intros H.
    exists q. split; [reflexivity | now apply is_integerb_sound].
  - destruct v; try discriminate. eauto.
  - destruct v; try discriminate. eauto.
  - destruct v; try discriminate. intros H.
    exists xs. split; [reflexivity|].
    apply Forall_forall. intros x Hx. apply IH.
    rewrite forallb_forall in H. now apply H.
  - destruct v; try discriminate. intros H.
    exists ps. split; [reflexivity|].
    apply Forall_forall. intros kv Hkv. apply IH.
    rewrite forallb_forall in H. now apply H.
  - destruct v; try discriminate. intros H.
    split; [eauto|]. revert H. generalize (JObj ps). intros v.
    revert fields. fix IHfs 1. intros [|[k s'] fs]; [trivial|].
    intros H. apply andb_true_iff in H as [Hk Hrest].
    split; [|exact (IHfs fs Hrest)].
    destruct (field k v) as [x|]; [|discriminate].
    exists x. split; [reflexivity | exact (IH s' x Hk)].
Qed.

(** ** Reading a date-time inverts writing it *)

Section ParserInversion.
Import ISO8601.

Lemma bind_inv {A B} (p : Parser A) (f : A -> Parser B) s b r :
  bind p f s = Some (b, r) ->
  exists a s', p s = Some (a, s') /\ f a s' = Some (b, r).
Proof.
  unfold bind. destruct (p s) as [[a s']|]; [|discriminate].
  intros H. now exists a, s'.
Qed.

Lemma ret_inv {A} (a b : A) s r : ret a s = Some (b, r) -> b = a /\ r = s.
Proof. unfold ret. intros H. now inversion H. Qed.

Lemma char_inv c s u r : char c s = Some (u, r) -> s = String c r.
Proof.
  destruct s as [|c' s']; cbn [char]; [discriminate|].
  destruct (Ascii.eqb c c') eqn:E; [|discriminate].
  apply Ascii.eqb_eq in E. intros H. inversion H. now subst.
Qed.

Lemma digit_inv s d r :
  digit s = Some (d, r) -> s = String (digit_char d) r /\ 0 <= d <= 9.
Proof.
  destruct s as [|c s']; cbn [digit]; [discriminate|].
  destruct (is_digit c) eqn:E; [|discriminate].
  intros H. inversion H. subst. clear H.
  destruct c as [[] [] [] [] [] [] [] []]; try discriminate E;
    vm_compute; (split; [reflexivity | split; discriminate]).
Qed.

Lemma two_digits_inv s n r :
  two_digits s = Some (n, r) -> s = pad2 n ++ r /\ 0 <= n <= 99.
Proof.
  unfold two_digits. intros H.
  apply bind_inv in H as (a & s1 & Ha & H).
  apply bind_inv in H as (b & s2 & Hb & H).
  apply ret_inv in H as [-> ->].
  apply digit_inv in Ha as [-> Ra]. apply digit_inv in Hb as [-> Rb].
  assert ((10 * a + b) / 10 = a) as Ediv by (Z.div_mod_to_equations; lia).
  assert ((10 * a + b) mod 10 = b) as Emod by (Z.div_mod_to_equations; lia).
  unfold pad2. rewrite Ediv, Emod. split; [reflexivity | lia].
Qed.

Lemma append_assoc (a b c : string) : (a ++ b) ++ c = a ++ b ++ c.
Proof. induction a as [|x a IHa]; cbn; [reflexivity | now rewrite IHa]. Qed.

Lemma four_digits_inv s n r :
  four_digits s = Some (n, r) -> s = pad4 n ++ r /\ 0 <= n <= 9999.
Proof.
  unfold four_digits. intros H.
  apply bind_inv in H as (a & s1 & Ha & H).
  apply bind_inv in H as (b & s2 & Hb & H).
  apply ret_inv in H as [-> ->].
  apply two_digits_inv in Ha as [-> Ra]. apply two_digits_inv in Hb as [-> Rb].
  assert ((100 * a + b) / 100 = a) as Ediv by (Z.div_mod_to_equations; lia).
  assert ((100 * a + b) mod 100 = b) as Emod by (Z.div_mod_to_equations; lia).
  unfold pad4. rewrite Ediv, Emod, append_assoc. split; [reflexivity | lia].
Qed.

Lemma append_nil_r (a : string) : a ++ EmptyString = a.
Proof. induction a as [|x a IHa]; cbn; [reflexivity | now rewrite IHa]. Qed.

Lemma offset_inv west s z r :
  offset west s = Some (z, r) ->
  exists hh mm, z = Offset west hh mm /\ s = pad2 hh ++ ":" ++ pad2 mm ++ r.
Proof.
  unfold offset. intros H.
  apply bind_inv in H as (hh & s1 & Hh & H).
  apply bind_inv in H as (u & s2 & Hc & H).
  apply bind_inv in H as (mm & s3 & Hm & H).
  apply ret_inv in H as [-> ->].
  apply two_digits_inv in Hh as [-> _]. apply char_inv in Hc as ->.
  apply two_digits_inv in Hm as [-> _].
  now exists hh, mm.
Qed.

Lemma zone_designator_inv s z r :
  zone_designator s = Some (z, r) -> s = print_zone z ++ r.
Proof.
  destruct s as [|c s']; cbn [zone_designator]; [discriminate|].
  destruct (Ascii.eqb c "Z") eqn:EZ.
  { apply Ascii.eqb_eq in EZ as ->. intros H. now inversion H. }
  destruct (Ascii.eqb c "+") eqn:Eplus.
  { apply Ascii.eqb_eq in Eplus as ->. intros H.
    apply offset_inv in H as (hh & mm & -> & ->).
    cbn [print_zone]. now rewrite !append_assoc. }
  destruct (Ascii.eqb c "-") eqn:Eminus; [|discriminate].
  apply Ascii.eqb_eq in Eminus as ->. intros H.
  apply offset_inv in H as (hh & mm & -> & ->).
  cbn [print_zone]. now rewrite !append_assoc.
Qed.

Ltac step_field H n Hn :=
  let s' := fresh "s" in
  apply bind_inv in H as (n & s' & Hn & H);
  apply two_digits_inv in Hn as [-> _].

Ltac step_char H :=
  let u := fresh "u" in
  let s' := fresh "s" in
  let Hc := fresh "Hc" in
  apply bind_inv in H as (u & s' & Hc & H);
  apply char_inv in Hc as ->.

Lemma date_time_inv s dt r :
  date_time s = Some (dt, r) -> s = print dt ++ r.
Proof.
  unfold date_time. intros H.
  apply bind_inv in H as (Y & s0 & HY & H).
  apply four_digits_inv in HY as [-> _].
  step_char H. step_field H M HM.
  step_char H. step_field H D HD.
  step_char H. step_field H h Hh.
  step_char H. step_field H m Hm.
  step_char H. step_field H sec Hsec.
  apply bind_inv in H as (z & s6 & Hz & H).
  apply zone_designator_inv in Hz as ->.
  apply ret_inv in H as [-> ->].
  unfold print. cbn [year month day hour minute second zone].
  now rewrite !append_assoc.
Qed.

Lemma parse_sound s dt :
  parse s = Some dt -> valid dt = true /\ s = print dt.
Proof.
  unfold parse.
  destruct (date_time s) as [[dt' r]|] eqn:E; [|discriminate].
  destruct r; [|discriminate].
  destruct (valid dt') eqn:V; [|discriminate].
  intros H. inversion H. subst dt'. split; [exact V|].
  apply date_time_inv in E. now rewrite append_nil_r in E.
Qed.

End ParserInversion.

(** ** The decision procedures are sound *)

Lemma forallb_In {A} (f : A -> bool) (P : A -> Prop) (l : list A) :
  (forall x, f x = true -> P x) ->
  forallb f l = true -> forall x, In x l -> P x.
Proof.
  intros Hsound Hall x Hx. apply Hsound.
  rewrite forallb_forall in Hall. now apply Hall.
Qed.

Lemma measurement_okb_sound b : measurement_okb b = true -> measurement_ok b.
Proof.
  unfold measurement_okb, measurement_ok.
  destruct (num_field "value" b) as [q|]; [|discriminate].
  destruct (str_field "unit" b) as [u|]; [|discriminate].
  intros H. apply andb_true_iff in H as [H Hunit].
  apply andb_true_iff in H as [Hfin Hpos].
  exists q, u. repeat split.
  - now apply js_finiteb_sound.
  - now apply Qle_bool_iff.
  - apply existsb_exists in Hunit as (u' & Hin & Heq).
    apply String.eqb_eq in Heq. now subst.
Qed.

Lemma date_leb_sound a b : date_leb a b = true -> date_le a b.
Proof.
  unfold date_leb, date_le.
  destruct (num_field "date" a) as [x|]; [|discriminate].
  destruct (num_field "date" b) as [y|]; [|discriminate].
  intros H. exists x, y. repeat split. now apply Qle_bool_iff.
Qed.

Lemma dates_nondecreasing_sound runs :
  dates_nondecreasing runs = true ->
  forall i a b,
    nth_error runs i = Some a -> nth_error runs (S i) = Some b -> date_le a b.
Proof.
  induction runs as [|r rest IH]; intros H i a b Ha Hb.
  - destruct i; discriminate.
  - cbn [dates_nondecreasing] in H. apply andb_true_iff in H as [Hhead Hrest].
    destruct i as [|i].
    + cbn in Ha, Hb. inversion Ha. subst r.
      destruct rest as [|r' rest']; [discriminate|].
      cbn in Hb. inversion Hb. subst r'. now apply date_leb_sound.
    + cbn [nth_error] in Ha. change (nth_error rest (S i) = Some b) in Hb.
      exact (IH Hrest i a b Ha Hb).
Qed.

Lemma not_afterb_sound stamp run :
  not_afterb stamp run = true -> not_after stamp run.
Proof.
  unfold not_afterb, not_after.
  destruct (num_field "date" run) as [d|]; [|discriminate].
  intros H. exists d. split; [reflexivity | now apply Qle_bool_iff].
Qed.

Lemma commit_okb_sound repo run :
  commit_okb repo run = true -> commit_ok repo run.
Proof.
  unfold commit_okb, commit_ok.
  destruct (str_field "id" (commit run)) as [id|]; [|discriminate].
  destruct (str_field "url" (commit run)) as [url|]; [|discriminate].
  intros H. apply andb_true_iff in H as [H Hurl].
  apply andb_true_iff in H as [Hlen Hhex].
  exists id, url. repeat split; trivial.
  - now apply Nat.eqb_eq.
  - now apply String.eqb_eq.
Qed.

Lemma timestamp_okb_sound run :
  timestamp_okb run = true -> timestamp_ok run.
Proof.
  unfold timestamp_okb, timestamp_ok.
  destruct (str_field "timestamp" (commit run)) as [ts|]; [|discriminate].
  destruct (ISO8601.parse ts) as [dt|] eqn:E; [|discriminate].
  intros _. apply parse_sound in E as [V P].
  exists ts, dt. repeat split; assumption.
Qed.

(** A run whose measurements are named and carry units has exactly those
    names. *)
Lemma bench_names_of_measurements run (l : list (string * string)) :
  map name_unit (benches run) = map Some l -> bench_names run = map fst l.
Proof.
  unfold bench_names. generalize (benches run). intros bs. revert l.
  induction bs as [|b bs IH]; intros [|[n u] l] H; try discriminate.
  - reflexivity.
  - cbn [map] in H. injection H as Hb Hbs.
    cbn [flat_map map fst]. rewrite (IH l Hbs).
    unfold name_unit in Hb.
    destruct (str_field "name" b) as [n'|]; [|discriminate].
    destruct (str_field "unit" b); [|discriminate].
    now inversion Hb.
Qed.

(** ** The records of the file *)

Lemma all_runs_eq :
  all_runs BENCHMARK_DATA =
  [ run_00; run_01; run_02; run_03; run_04; run_05; run_06; run_07; run_08;
    run_09; run_10; run_11; run_12; run_13; run_14; run_15; run_16; run_17;
    run_18; run_19 ].
Proof. reflexivity. Qed.

Lemma benchmark_runs_eq :
  suite_runs "Benchmark" BENCHMARK_DATA = all_runs BENCHMARK_DATA.
Proof. reflexivity. Qed.

(** Splits [In r (all_runs BENCHMARK_DATA)] into one goal per record. *)
Ltac each_run H :=
  rewrite all_runs_eq in H; cbn [In] in H;
  repeat (destruct H as [<- | H]); [.. | contradiction H].

Lemma run_measurements run :
  In run (all_runs BENCHMARK_DATA) ->
  map name_unit (benches run) = map Some latency_measurements.
Proof. intros H. each_run H; reflexivity. Qed.

Lemma latency_units n u : In (n, u) latency_measurements -> unit_by_name n u.
Proof.
  cbn [In latency_measurements]. intros H.
  repeat (destruct H as [H | H]; [inversion H; subst; split; cbn; congruence|]).
  contradiction H.
Qed.

(** * Properties of the data file *)

(** C1. The value bound to [window.BENCHMARK_DATA] has the interface shape
    of section 6: an integer [lastUpdate], a string [repoUrl], and
    [entries] mapping every suite name to an array of run records, each
    with a [commit] object (objects [author] and [committer], a boolean
    [distinct], strings [id], [message], [timestamp], [tree_id], [url]), an
    integer [date], a string [tool], and an array [benches] of records with
    a string [name], a number [value] and a string [unit]. *)
Theorem BENCHMARK_DATA_conforms :
  Shape.Conforms Shape.benchmark_data BENCHMARK_DATA.
Proof. apply check_sound. vm_compute. reflexivity. Qed.

(** C2. Every measurement of every run record has a finite, non-negative
    [value] and a [unit] among the known units, seconds and milliseconds. *)
Theorem measurements_finite_nonnegative_known_unit :
  forall run b,
    In run (all_runs BENCHMARK_DATA) -> In b (benches run) ->
    measurement_ok b.
Proof.
  intros run b Hrun. revert b.
  apply (forallb_In measurement_okb); [exact measurement_okb_sound|].
  revert run Hrun.
  apply (forallb_In (fun r => forallb measurement_okb (benches r)));
    [trivial|].
  vm_compute. reflexivity.
Qed.

Lemma measurements_finite_nonnegative_known_unit_witness :
  measurement_ok
    (JObj [("name", JStr "readdir_100"); ("value", JNum 0.072);
           ("unit", JStr "seconds")]).
Proof.
  apply (measurements_finite_nonnegative_known_unit run_00).
  - left. reflexivity.
  - left. reflexivity.
Defined.

(** C3. In [entries.Benchmark], the [date] of a run record is at most the
    [date] of the record that follows it. *)
Theorem benchmark_dates_nondecreasing :
  forall i a b,
    nth_error (suite_runs "Benchmark" BENCHMARK_DATA) i = Some a ->
    nth_error (suite_runs "Benchmark" BENCHMARK_DATA) (S i) = Some b ->
    date_le a b.
Proof.
  apply dates_nondecreasing_sound. vm_compute. reflexivity.
Qed.

Lemma benchmark_dates_nondecreasing_witness : date_le run_00 run_01.
Proof.
  apply (benchmark_dates_nondecreasing 0 run_00 run_01); reflexivity.
Defined.

(** C4. Any two run records of [entries.Benchmark] have the same set of
    measurement names. *)
Theorem benchmark_names_stable :
  forall r1 r2,
    In r1 (suite_runs "Benchmark" BENCHMARK_DATA) ->
    In r2 (suite_runs "Benchmark" BENCHMARK_DATA) ->
    forall n, In n (bench_names r1) <-> In n (bench_names r2).
Proof.
  intros r1 r2 H1 H2 n. rewrite benchmark_runs_eq in H1, H2.
  rewrite (bench_names_of_measurements r1 _ (run_measurements r1 H1)).
  rewrite (bench_names_of_measurements r2 _ (run_measurements r2 H2)).
  reflexivity.
Qed.

Lemma benchmark_names_stable_witness :
  In "readdir_100" (bench_names run_00) <->
  In "readdir_100" (bench_names run_19).
Proof.
  apply (benchmark_names_stable run_00 run_19).
  - left. reflexivity.
  - do 19 right. left. reflexivity.
Defined.

(** C5. Every run record of every suite has a non-empty [benches] array,
    an ordered sequence of measurement records. *)
Theorem benches_nonempty :
  forall run,
    In run (all_runs BENCHMARK_DATA) ->
    exists b bs,
      field "benches" run = Some (JArr (b :: bs)) /\
      Forall (Shape.Conforms Shape.measurement) (b :: bs).
Proof.
  intros run H.
  assert (Forall (Shape.Conforms Shape.measurement) (benches run)) as Hall.
  { apply Forall_forall.
    apply (forallb_In (Shape.check Shape.measurement)); [apply check_sound|].
    revert run H.
    apply (forallb_In
             (fun r => forallb (Shape.check Shape.measurement) (benches r)));
      [trivial|].
    vm_compute. reflexivity. }
  revert Hall. each_run H; intros Hall; eexists; eexists;
    (split; [reflexivity | exact Hall]).
Qed.

Lemma benches_nonempty_witness :
  exists b bs,
    field "benches" run_07 = Some (JArr (b :: bs)) /\
    Forall (Shape.Conforms Shape.measurement) (b :: bs).
Proof.
  apply (benches_nonempty run_07). do 7 right. left. reflexivity.
Defined.

(** C6. Every run record's [commit.timestamp] is the ISO 8601 writing of a
    valid date-time, with zone designator [Z] or a signed [hh:mm] offset. *)
Theorem timestamps_iso8601 :
  forall run, In run (all_runs BENCHMARK_DATA) -> timestamp_ok run.
Proof.
  apply (forallb_In timestamp_okb); [exact timestamp_okb_sound|].
  vm_compute. reflexivity.
Qed.

Lemma timestamps_iso8601_witness : timestamp_ok run_01.
Proof.
  apply (timestamps_iso8601 run_01). right. left. reflexivity.
Defined.

(** Both zone designators occur in the file. *)
Example timestamp_zone_utc : timestamp_zone run_00 = Some ISO8601.UTC.
Proof. reflexivity. Qed.

Example timestamp_zone_west :
  timestamp_zone run_01 = Some (ISO8601.Offset true 5 0).
Proof. reflexivity. Qed.

Example timestamp_zone_east :
  timestamp_zone run_19 = Some (ISO8601.Offset false 1 0).
Proof. reflexivity. Qed.

(** C8. [lastUpdate] is at least the [date] of every run record of every
    suite. *)
Theorem last_update_not_before_any_run :
  forall run,
    In run (all_runs BENCHMARK_DATA) ->
    exists stamp,
      num_field "lastUpdate" BENCHMARK_DATA = Some stamp /\
      not_after stamp run.
Proof.
  intros run H. exists 1695115549634%Q. split; [reflexivity|].
  revert run H.
  apply (forallb_In (not_afterb 1695115549634)); [apply not_afterb_sound|].
  vm_compute. reflexivity.
Qed.

Lemma last_update_not_before_any_run_witness :
  exists stamp,
    num_field "lastUpdate" BENCHMARK_DATA = Some stamp /\
    not_after stamp run_19.
Proof.
  apply (last_update_not_before_any_run run_19).
  do 19 right. left. reflexivity.
Defined.

(** C9. Every run record's [commit.id] is forty lower-case hexadecimal
    digits, and its [commit.url] is [repoUrl], then [/commit/], then the
    id. *)
Theorem commit_id_and_url :
  forall run,
    In run (all_runs BENCHMARK_DATA) ->
    exists repo,
      str_field "repoUrl" BENCHMARK_DATA = Some repo /\ commit_ok repo run.
Proof.
  intros run H. exists "https://github.com/awslabs/mountpoint-s3".
  split; [reflexivity|]. revert run H.
  apply (forallb_In (commit_okb "https://github.com/awslabs/mountpoint-s3"));
    [apply commit_okb_sound|].
  vm_compute. reflexivity.
Qed.

Lemma commit_id_and_url_witness :
  exists repo,
    str_field "repoUrl" BENCHMARK_DATA = Some repo /\ commit_ok repo run_00.
Proof.
  apply (commit_id_and_url run_00). left. reflexivity.
Defined.

(** C10. [entries] has the single suite [Benchmark]; every run record has
    [tool] equal to [customSmallerIsBetter] and lists exactly the six
    latency measurements in their fixed order, each [readdir_*] one in
    seconds and each [time_to_first_byte_*] one in milliseconds. *)
Theorem tool_suite_and_measurements :
  keys (obj_field "entries" BENCHMARK_DATA) = ["Benchmark"] /\
  forall run,
    In run (all_runs BENCHMARK_DATA) ->
    str_field "tool" run = Some "customSmallerIsBetter" /\
    map name_unit (benches run) = map Some latency_measurements /\
    forall b n u,
      In b (benches run) -> name_unit b = Some (n, u) -> unit_by_name n u.
Proof.
  split; [reflexivity|]. intros run H.
  pose proof (run_measurements run H) as Hm.
  split; [|split; [exact Hm|]].
  - each_run H; reflexivity.
  - intros b n u Hb Hnu. apply latency_units.
    apply (in_map name_unit) in Hb. rewrite Hm, Hnu in Hb.
    apply in_map_iff in Hb as (p & Hp & Hin). now inversion Hp; subst.
Qed.

Lemma tool_suite_and_measurements_witness :
  str_field "tool" run_00 = Some "customSmallerIsBetter" /\
  unit_by_name "time_to_first_byte_read" "milliseconds".
Proof.
  destruct (proj2 tool_suite_and_measurements run_00) as (Htool & _ & Hunit).
  - left. reflexivity.
  - split; [exact Htool|].
    apply (Hunit (JObj [("name", JStr "time_to_first_byte_read");
                        ("value", JNum 103.8612371);
                        ("unit", JStr "milliseconds")])).
    + do 4 right. left. reflexivity.
    + reflexivity.
Defined.

(** * Further facts *)

(** ** The day count follows the calendar *)

Example epoch_day : days_from_civil 1970 1 1 = 0.
Proof. reflexivity. Qed.

Lemma days_from_civil_jan_feb y m d :
  m <= 2 ->
  days_from_civil y m d =
  year_days (y - 1) + (153 * (m + 9) + 2) / 5 + d - 1 - 719468.
Proof.
  intros H. unfold days_from_civil, year_days.
  destruct (Z.leb_spec m 2); [cbv zeta; lia | lia].
Qed.

Lemma days_from_civil_mar_dec y m d :
  2 < m ->
  days_from_civil y m d =
  year_days y + (153 * (m - 3) + 2) / 5 + d - 1 - 719468.
Proof.
  intros H. unfold days_from_civil, year_days.
  destruct (Z.leb_spec m 2); [lia | cbv zeta; lia].
Qed.

(** A year within its 400-year cycle. *)
Lemma cycle_split y :
  exists e r,
    y = 400 * e + r /\ 0 <= r < 400 /\ y / 400 = e /\
    y mod 4 = r mod 4 /\ y mod 100 = r mod 100 /\ y mod 400 = r /\
    (y - 1) / 400 = (if Z.eqb r 0 then e - 1 else e).
Proof.
  exists (y / 400), (y mod 400).
  pose proof (Z.div_mod y 400 ltac:(lia)) as E.
  pose proof (Z.mod_pos_bound y 400 ltac:(lia)) as B.
  repeat split; try lia.
  - rewrite E at 1.
    replace (400 * (y / 400)) with ((y / 400 * 100) * 4) by lia.
    rewrite Z.add_comm, Z.mod_add by lia. reflexivity.
  - rewrite E at 1.
    replace (400 * (y / 400)) with ((y / 400 * 4) * 100) by lia.
    rewrite Z.add_comm, Z.mod_add by lia. reflexivity.
  - destruct (Z.eqb_spec (y mod 400) 0) as [H0|H0]; symmetry.
    + apply (Z.div_unique _ _ _ 399); lia.
    + apply (Z.div_unique _ _ _ (y mod 400 - 1)); lia.
Qed.

(** From one March 1 to the next there are 365 days, and one more across
    a leap day. *)
Lemma year_days_step y :
  year_days y =
  year_days (y - 1) + (if ISO8601.leap_year y then 366 else 365).
Proof.
  unfold year_days, ISO8601.leap_year. cbv zeta.
  destruct (cycle_split y) as (e & r & Hy & Hr & -> & -> & -> & -> & ->).
  replace (y - e * 400) with r by lia.
  destruct (Z.eqb_spec r 0) as [H0|H0].
  - subst r. replace (y - 1 - (e - 1) * 400) with 399 by lia.
    change (0 mod 4) with 0. change (0 mod 100) with 0.
    change (0 / 4) with 0. change (0 / 100) with 0.
    change (399 / 4) with 99. change (399 / 100) with 3.
    cbn [Z.eqb andb orb negb]. lia.
  - replace (y - 1 - e * 400) with (r - 1) by lia. clear Hy y.
    destruct (Z.eqb_spec (r mod 4) 0), (Z.eqb_spec (r mod 100) 0);
      cbn [andb orb negb]; Z.div_mod_to_equations; lia.
Qed.

Lemma days_from_civil_next_day y m d :
  days_from_civil y m (d + 1) = days_from_civil y m d + 1.
Proof.
  destruct (Z.le_gt_cases m 2).
  - rewrite !days_from_civil_jan_feb by assumption. lia.
  - rewrite !days_from_civil_mar_dec by lia. lia.
Qed.

(** The first of a month follows the last day of the month before. *)
Lemma days_from_civil_next_month y m :
  1 <= m <= 11 ->
  days_from_civil y (m + 1) 1 =
  days_from_civil y m (ISO8601.days_in_month y m) + 1.
Proof.
  intros Hm.
  assert (m = 1 \/ m = 2 \/ m = 3 \/ m = 4 \/ m = 5 \/ m = 6 \/ m = 7 \/
          m = 8 \/ m = 9 \/ m = 10 \/ m = 11) as Hcases by lia.
  destruct Hcases as [-> | [-> | Hcases]].
  - rewrite !days_from_civil_jan_feb by lia.
    change (ISO8601.days_in_month y 1) with 31.
    Z.div_mod_to_equations; lia.
  - rewrite days_from_civil_mar_dec, days_from_civil_jan_feb by lia.
    rewrite year_days_step.
    change (ISO8601.days_in_month y 2)
      with (if ISO8601.leap_year y then 29 else 28).
    destruct (ISO8601.leap_year y); Z.div_mod_to_equations; lia.
  - repeat (destruct Hcases as [-> | Hcases]); try subst m;
      rewrite !days_from_civil_mar_dec by lia;
      cbn [ISO8601.days_in_month]; Z.div_mod_to_equations; lia.
Qed.

(** January 1 follows December 31. *)
Lemma days_from_civil_next_year y :
  days_from_civil (y + 1) 1 1 = days_from_civil y 12 31 + 1.
Proof.
  rewrite days_from_civil_jan_feb, days_from_civil_mar_dec by lia.
  replace (y + 1 - 1) with y by lia. Z.div_mod_to_equations; lia.
Qed.

(** ** More decision procedures are sound *)

Lemma Qltb_sound (x y : Q) : Qltb x y = true -> (x < y)%Q.
Proof.
  unfold Qltb. intros H. apply negb_true_iff in H.
  apply Qnot_le_lt. intros Hle. apply Qle_bool_iff in Hle. congruence.
Qed.

Lemma same_strings_eq (a b : list string) : same_strings a b = true -> a = b.
Proof.
  revert b. induction a as [|x a IH]; intros [|y b] H; try discriminate.
  - reflexivity.
  - cbn in H. apply andb_true_iff in H as [Hx Hrest].
    apply String.eqb_eq in Hx. now rewrite Hx, (IH b Hrest).
Qed.

Lemma closed_runb_sound run : closed_runb run = true -> closed_run run.
Proof.
  unfold closed_runb, closed_run. intros H.
  repeat (apply andb_true_iff in H as [H ?]).
  repeat split; try now apply same_strings_eq.
  apply Forall_forall.
  apply (forallb_In (fun b => same_strings (keys b) measurement_keys));
    [intros b Hb; now apply same_strings_eq | assumption].
Qed.

Lemma tree_id_okb_sound run : tree_id_okb run = true -> tree_id_ok run.
Proof.
  unfold tree_id_okb, tree_id_ok.
  destruct (str_field "tree_id" (commit run)) as [t|]; [|discriminate].
  intros H. apply andb_true_iff in H as [Hlen Hhex].
  exists t. repeat split; trivial. now apply Nat.eqb_eq.
Qed.

Lemma option_string_eqb_refl a : option_string_eqb a a = true.
Proof. destruct a as [x|]; [apply String.eqb_refl | reflexivity]. Qed.

Lemma distinctb_sound l : distinctb l = true -> NoDup l.
Proof.
  induction l as [|x rest IH]; intros H; constructor.
  - cbn in H. apply andb_true_iff in H as [Hx _].
    apply negb_true_iff in Hx. intros Hin.
    assert (existsb (option_string_eqb x) rest = true) as Hex.
    { apply existsb_exists. exists x. split; [exact Hin|].
      apply option_string_eqb_refl. }
    congruence.
  - cbn in H. apply andb_true_iff in H as [_ Hrest]. now apply IH.
Qed.

Section Consecutive.
Context {A : Type} (rel : A -> A -> bool) (R : A -> A -> Prop).
Hypothesis rel_sound : forall a b, rel a b = true -> R a b.

Lemma consecutiveb_sound l :
  consecutiveb rel l = true ->
  forall i a b,
    nth_error l i = Some a -> nth_error l (S i) = Some b -> R a b.
Proof.
  induction l as [|x rest IH]; intros H i a b Ha Hb.
  - destruct i; discriminate.
  - cbn [consecutiveb] in H. apply andb_true_iff in H as [Hhead Hrest].
    destruct i as [|i].
    + cbn in Ha, Hb. inversion Ha. subst x.
      destruct rest as [|x' rest']; [discriminate|].
      cbn in Hb. inversion Hb. subst x'. now apply rel_sound.
    + cbn [nth_error] in Ha. change (nth_error rest (S i) = Some b) in Hb.
      exact (IH Hrest i a b Ha Hb).
Qed.

Hypothesis R_trans : forall a b c, R a b -> R b c -> R a c.

(** A transitive relation that holds between neighbours holds between any
    earlier and any later element. *)
Lemma consecutiveb_pairwise l :
  consecutiveb rel l = true ->
  forall i j a b,
    (i < j)%nat -> nth_error l i = Some a -> nth_error l j = Some b -> R a b.
Proof.
  intros H i j. induction j as [|j IH]; intros a b Hij Ha Hb; [lia|].
  destruct (Nat.eq_dec i j) as [-> | Hne].
  - exact (consecutiveb_sound l H j a b Ha Hb).
  - assert (j < List.length l)%nat as Hlen.
    { assert (S j < List.length l)%nat
        by (apply nth_error_Some; congruence). lia. }
    destruct (nth_error l j) as [c|] eqn:Hc;
      [|apply nth_error_Some in Hlen; contradiction].
    apply (R_trans a c b).
    + apply IH; [lia | assumption | reflexivity].
    + exact (consecutiveb_sound l H j c b Hc Hb).
Qed.

End Consecutive.

Lemma date_ltb_sound a b : date_ltb a b = true -> date_lt a b.
Proof.
  unfold date_ltb, date_lt.
  destruct (num_field "date" a) as [x|]; [|discriminate].
  destruct (num_field "date" b) as [y|]; [|discriminate].
  intros H. exists x, y. repeat split. now apply Qltb_sound.
Qed.

Lemma date_lt_trans a b c : date_lt a b -> date_lt b c -> date_lt a c.
Proof.
  intros (x & y & Hx & Hy & Hxy) (y' & z & Hy' & Hz & Hyz).
  rewrite Hy in Hy'. inversion Hy'. subst y'.
  exists x, z. repeat split; trivial. now apply (Qlt_trans x y z).
Qed.

Lemma commit_leb_sound a b : commit_leb a b = true -> commit_le a b.
Proof.
  unfold commit_leb, commit_le.
  destruct (commit_instant a) as [x|]; [|discriminate].
  destruct (commit_instant b) as [y|]; [|discriminate].
  intros H. exists x, y. repeat split. now apply Z.leb_le.
Qed.

Lemma commit_le_trans a b c : commit_le a b -> commit_le b c -> commit_le a c.
Proof.
  intros (x & y & Hx & Hy & Hxy) (y' & z & Hy' & Hz & Hyz).
  rewrite Hy in Hy'. inversion Hy'. subst y'.
  exists x, z. repeat split; trivial. lia.
Qed.

Lemma captured_after_commitb_sound run :
  captured_after_commitb run = true -> captured_after_commit run.
Proof.
  unfold captured_after_commitb, captured_after_commit.
  destruct (commit_instant run) as [t|]; [|discriminate].
  destruct (num_field "date" run) as [d|]; [|discriminate].
  intros H. exists t, d. repeat split. now apply Qle_bool_iff.
Qed.

Lemma value_positiveb_sound b : value_positiveb b = true -> value_positive b.
Proof.
  unfold value_positiveb, value_positive.
  destruct (num_field "value" b) as [q|]; [|discriminate].
  intros H. exists q. split; [reflexivity | now apply Qltb_sound].
Qed.

Lemma readdir_growsb_sound run : readdir_growsb run = true -> readdir_grows run.
Proof.
  unfold readdir_growsb, readdir_grows.
  destruct (bench_value "readdir_100" run) as [a|]; [|discriminate].
  destruct (bench_value "readdir_1000" run) as [b|]; [|discriminate].
  destruct (bench_value "readdir_10000" run) as [c|]; [|discriminate].
  destruct (bench_value "readdir_100000" run) as [d|]; [|discriminate].
  intros H. apply andb_true_iff in H as [H Hcd].
  apply andb_true_iff in H as [Hab Hbc].
  exists a, b, c, d. repeat split; now apply Qltb_sound.
Qed.

(** * Further properties of the data file *)

(** X1. No object of the file has a property beyond those of the interface
    shape: the top-level object, every run record, its commit, the commit's
    author and committer, and every measurement list exactly their keys, in
    order. *)
Theorem records_closed :
  keys BENCHMARK_DATA = ["lastUpdate"; "repoUrl"; "entries"] /\
  forall run, In run (all_runs BENCHMARK_DATA) -> closed_run run.
Proof.
  split; [reflexivity|].
  apply (forallb_In closed_runb); [exact closed_runb_sound|].
  vm_compute. reflexivity.
Qed.

Lemma records_closed_witness : closed_run run_05.
Proof.
  apply (proj2 records_closed run_05). do 5 right. left. reflexivity.
Defined.

(** X2. In every run record, the commit's [author] and [committer] are
    records with string fields [email], [name] and [username]. *)
Theorem author_committer_shape :
  forall run,
    In run (all_runs BENCHMARK_DATA) ->
    Shape.Conforms person (author run) /\
    Shape.Conforms person (committer run).
Proof.
  apply (forallb_In
           (fun r => Shape.check person (author r) &&
                     Shape.check person (committer r))).
  - intros r H. apply andb_true_iff in H as [Ha Hc].
    split; now apply check_sound.
  - vm_compute. reflexivity.
Qed.

Lemma author_committer_shape_witness :
  Shape.Conforms person (author run_02) /\
  Shape.Conforms person (committer run_02).
Proof.
  apply (author_committer_shape run_02). do 2 right. left. reflexivity.
Defined.

(** X3. Every run record's [commit.tree_id] is forty lower-case hexadecimal
    digits. *)
Theorem tree_ids_hex :
  forall run, In run (all_runs BENCHMARK_DATA) -> tree_id_ok run.
Proof.
  apply (forallb_In tree_id_okb); [exact tree_id_okb_sound|].
  vm_compute. reflexivity.
Qed.

Lemma tree_ids_hex_witness : tree_id_ok run_00.
Proof. apply (tree_ids_hex run_00). left. reflexivity. Defined.

(** X4. Run records at different positions of [entries.Benchmark] are for
    different commits: their [commit.id]s differ. *)
Theorem commit_ids_distinct :
  forall i j a b,
    nth_error (suite_runs "Benchmark" BENCHMARK_DATA) i = Some a ->
    nth_error (suite_runs "Benchmark" BENCHMARK_DATA) j = Some b ->
    i <> j -> commit_id a <> commit_id b.
Proof.
  intros i j a b Ha Hb Hij Heq. apply Hij.
  assert (NoDup (map commit_id (suite_runs "Benchmark" BENCHMARK_DATA)))
    as Hnodup by (apply distinctb_sound; vm_compute; reflexivity).
  rewrite NoDup_nth_error in Hnodup. apply Hnodup.
  - rewrite length_map. apply nth_error_Some. congruence.
  - rewrite !nth_error_map, Ha, Hb. cbn. now rewrite Heq.
Qed.

Lemma commit_ids_distinct_witness : commit_id run_00 <> commit_id run_01.
Proof.
  apply (commit_ids_distinct 0 1 run_00 run_01);
    [reflexivity | reflexivity | discriminate].
Defined.

(** X5. In [entries.Benchmark], a run record earlier in the array has a
    strictly smaller [date] than any later one. *)
Theorem dates_strictly_increasing :
  forall i j a b,
    (i < j)%nat ->
    nth_error (suite_runs "Benchmark" BENCHMARK_DATA) i = Some a ->
    nth_error (suite_runs "Benchmark" BENCHMARK_DATA) j = Some b ->
    date_lt a b.
Proof.
  apply (consecutiveb_pairwise date_ltb date_lt date_ltb_sound date_lt_trans).
  vm_compute. reflexivity.
Qed.

Lemma dates_strictly_increasing_witness : date_lt run_08 run_10.
Proof.
  apply (dates_strictly_increasing 8 10 run_08 run_10);
    [lia | reflexivity | reflexivity].
Defined.

(** The instant of a timestamp accounts for its zone. *)
Example commit_instant_utc : commit_instant run_00 = Some 1692977907000.
Proof. reflexivity. Qed.

Example commit_instant_west : commit_instant run_01 = Some 1692986748000.
Proof. reflexivity. Qed.

Example commit_instant_east : commit_instant run_19 = Some 1695114906000.
Proof. reflexivity. Qed.

(** X6. Every run record was captured no earlier than its commit was made:
    the instant of [commit.timestamp], in epoch milliseconds, is at most
    [date]. *)
Theorem runs_captured_after_commit :
  forall run, In run (all_runs BENCHMARK_DATA) -> captured_after_commit run.
Proof.
  apply (forallb_In captured_after_commitb);
    [exact captured_after_commitb_sound|].
  vm_compute. reflexivity.
Qed.

Lemma runs_captured_after_commit_witness : captured_after_commit run_01.
Proof.
  apply (runs_captured_after_commit run_01). right. left. reflexivity.
Defined.

(** X7. In [entries.Benchmark], the commit of a run record earlier in the
    array was made no later than the commit of any later one, the zone
    offsets of the timestamps taken into account. *)
Theorem commits_in_order :
  forall i j a b,
    (i < j)%nat ->
    nth_error (suite_runs "Benchmark" BENCHMARK_DATA) i = Some a ->
    nth_error (suite_runs "Benchmark" BENCHMARK_DATA) j = Some b ->
    commit_le a b.
Proof.
  apply (consecutiveb_pairwise commit_leb commit_le
           commit_leb_sound commit_le_trans).
  vm_compute. reflexivity.
Qed.

Lemma commits_in_order_witness : commit_le run_00 run_01.
Proof.
  apply (commits_in_order 0 1 run_00 run_01);
    [lia | reflexivity | reflexivity].
Defined.

(** X8. Every measurement of every run record has a strictly positive
    [value]. *)
Theorem values_positive :
  forall run b,
    In run (all_runs BENCHMARK_DATA) -> In b (benches run) ->
    value_positive b.
Proof.
  intros run b Hrun. revert b.
  apply (forallb_In value_positiveb); [exact value_positiveb_sound|].
  revert run Hrun.
  apply (forallb_In (fun r => forallb value_positiveb (benches r)));
    [trivial|].
  vm_compute. reflexivity.
Qed.

Lemma values_positive_witness :
  value_positive
    (JObj [("name", JStr "readdir_1000"); ("value", JNum 0.175);
           ("unit", JStr "seconds")]).
Proof.
  apply (values_positive run_00).
  - left. reflexivity.
  - right. left. reflexivity.
Defined.

(** X9. In every run record, listing a larger directory took longer: the
    values of [readdir_100], [readdir_1000], [readdir_10000] and
    [readdir_100000] are strictly increasing. *)
Theorem readdir_latency_grows :
  forall run, In run (all_runs BENCHMARK_DATA) -> readdir_grows run.
Proof.
  apply (forallb_In readdir_growsb); [exact readdir_growsb_sound|].
  vm_compute. reflexivity.
Qed.

Lemma readdir_latency_grows_witness : readdir_grows run_12.
Proof.
  apply (readdir_latency_grows run_12). do 12 right. left. reflexivity.
Defined.
